(** * Trading-signal dashboard: signal generator, trade creation and
      profit ledger

    Shallow embedding of
    - [components/trading-dashboard.tsx] (component state, its handlers,
      [onMessage] and [calculateProfit]),
    - [lib/socket.ts] ([setupMockWebSocket], [generateMockStockData],
      [generateSignal]),
    - [components/price-chart.tsx] (the chart points), and
    - [components/stock-selector.tsx] (the [stocks] on offer).

    JavaScript numbers are read in two ways.  The dashboard, the feed and
    the chart are embedded over [Num.number]: exact rationals extended
    with the IEEE special values [Infinity], [-Infinity] and [NaN], in
    which finite values neither round nor overflow and every zero is
    [+0].  The properties stated over it are about the structure of the
    state, about signs and comparisons, and about clock values, which are
    integers.  [calculateProfit] is embedded a second time in [IEEE],
    over binary64 floating-point numbers, which is what the code
    computes with; what depends on rounding is stated there.  Reads of
    [Date.now()] and [Math.random()] are explicit inputs of the functions
    that perform them.

    The component state is a record with one field per [useState] hook;
    a handler is a function from state to state that applies its setter
    calls in order.  The [trades] value that [onMessage] closes over is an
    input of its own, since a callback can outlive the effect that
    installed it.  Toasts and console output are presentation and are
    left out. *)

From Stdlib Require Import QArith ZArith List Bool String Lia Lqa.
From Stdlib Require Import Qabs.
From Stdlib Require PrimFloat.
Import ListNotations.

(* ================================================================== *)
(** ** JavaScript numbers *)

Module Num.

Inductive number : Type :=
| Fin (q : Q)
| PosInf
| NegInf
| NaN.

Definition of_Z (z : Z) : number := Fin (inject_Z z).

(** Sign of a number, [None] for [NaN]. *)
Definition sign (x : number) : option comparison :=
  match x with
  | Fin q => Some (q ?= 0)%Q
  | PosInf => Some Gt
  | NegInf => Some Lt
  | NaN => None
  end.

Definition sign_mul (a b : comparison) : comparison :=
  match a, b with
  | Eq, _ | _, Eq => Eq
  | Gt, Gt | Lt, Lt => Gt
  | Gt, Lt | Lt, Gt => Lt
  end.

(** The infinity of a given sign; an undetermined sign gives [NaN]
    (as in [0 * Infinity] and [0 / 0]). *)
Definition inf_of (c : comparison) : number :=
  match c with
  | Gt => PosInf
  | Lt => NegInf
  | Eq => NaN
  end.

Definition opp (x : number) : number :=
  match x with
  | Fin q => Fin (- q)
  | PosInf => NegInf
  | NegInf => PosInf
  | NaN => NaN
  end.

Definition add (x y : number) : number :=
  match x, y with
  | NaN, _ | _, NaN => NaN
  | Fin a, Fin b => Fin (a + b)
  | PosInf, NegInf | NegInf, PosInf => NaN
  | PosInf, _ | _, PosInf => PosInf
  | NegInf, _ | _, NegInf => NegInf
  end.

Definition sub (x y : number) : number := add x (opp y).

Definition mul (x y : number) : number :=
  match x, y with
  | Fin a, Fin b => Fin (a * b)
  | _, _ =>
      match sign x, sign y with
      | Some sx, Some sy => inf_of (sign_mul sx sy)
      | _, _ => NaN
      end
  end.

(** Division.  A finite dividend over zero gives the infinity of the
    dividend's sign, [0 / 0] gives [NaN]. *)
Definition div (x y : number) : number :=
  match x, y with
  | NaN, _ | _, NaN => NaN
  | Fin a, Fin b =>
      if Qeq_bool b 0 then inf_of (a ?= 0)%Q else Fin (a / b)
  | Fin _, _ => Fin 0
  | _, Fin b =>
      match sign x with
      | Some sx => inf_of (sign_mul sx (if Qle_bool 0 b then Gt else Lt))
      | None => NaN
      end
  | _, _ => NaN
  end.

(** [x < y]; any comparison with [NaN] is false. *)
Definition ltb (x y : number) : bool :=
  match x, y with
  | NaN, _ | _, NaN => false
  | Fin a, Fin b => match (a ?= b)%Q with Lt => true | _ => false end
  | NegInf, NegInf => false
  | NegInf, _ => true
  | _, NegInf => false
  | PosInf, _ => false
  | _, PosInf => true
  end.

Definition gtb (x y : number) : bool := ltb y x.

(** [x <= y]. *)
Definition leb (x y : number) : bool :=
  match x, y with
  | NaN, _ | _, NaN => false
  | Fin a, Fin b => Qle_bool a b
  | NegInf, _ => true
  | _, PosInf => true
  | _, _ => false
  end.

Definition geb (x y : number) : bool := leb y x.

(** Truthiness of a number in a condition: [0] and [NaN] are falsy. *)
Definition truthy (x : number) : bool :=
  match x with
  | Fin q => negb (Qeq_bool q 0)
  | PosInf | NegInf => true
  | NaN => false
  end.

Definition finite (x : number) : Prop :=
  match x with Fin _ => True | _ => False end.

Definition is_finite (x : number) : bool :=
  match x with Fin _ => true | _ => false end.

(** Two embedded numbers denote the same value. *)
Definition eqv (x y : number) : Prop :=
  match x, y with
  | Fin a, Fin b => a == b
  | PosInf, PosInf | NegInf, NegInf | NaN, NaN => True
  | _, _ => False
  end.

Definition eqvb (x y : number) : bool :=
  match x, y with
  | Fin a, Fin b => Qeq_bool a b
  | PosInf, PosInf | NegInf, NegInf | NaN, NaN => true
  | _, _ => false
  end.

End Num.

Import Num.

Declare Scope num_scope.
Delimit Scope num_scope with num.
Bind Scope num_scope with number.
Infix "+" := add : num_scope.
Infix "-" := sub : num_scope.
Infix "*" := mul : num_scope.
Infix "/" := div : num_scope.
Infix "<?" := ltb : num_scope.
Infix ">?" := gtb : num_scope.
Infix "<=?" := leb : num_scope.
Infix ">=?" := geb : num_scope.
Infix "=~" := eqv (at level 70, no associativity) : num_scope.

(** [x || d] on an optional number: the default is taken when [x] is
    [undefined] or falsy. *)
Definition or_else (x : option number) (d : number) : number :=
  match x with
  | Some v => if truthy v then v else d
  | None => d
  end.

(* ================================================================== *)
(** ** Data model ([trading-dashboard.tsx], exported types) *)

Inductive SignalType : Type := BUY | SELL | HOLD.

(** The [type] of a [Trade]: ["BUY" | "SELL"]. *)
Inductive TradeType : Type := T_BUY | T_SELL.

Definition SignalType_eqb (a b : SignalType) : bool :=
  match a, b with
  | BUY, BUY | SELL, SELL | HOLD, HOLD => true
  | _, _ => false
  end.

Module Signal.
Record t : Type := mk {
  type : SignalType;
  price : number;
  timestamp : number
}.
End Signal.

Module Trade.
Record t : Type := mk {
  type : TradeType;
  price : number;
  timestamp : number;
  quantity : number
}.
End Trade.

Module StockData.
Record t : Type := mk {
  symbol : string;
  name : string;
  currentPrice : number;
  previousPrice : number;
  change : number;
  changePercent : number
}.
End StockData.

(** An entry of [priceHistory]. *)
Module PricePoint.
Record t : Type := mk {
  price : number;
  timestamp : number
}.
End PricePoint.

(** The payload handed to [onMessage]. *)
Module Message.
Record t : Type := mk {
  stockData : StockData.t;
  signal : option Signal.t
}.
End Message.

(* ================================================================== *)
(** ** Component state of [TradingDashboard] *)

(** One field per [useState] hook. *)
Record State : Type := mkState {
  selectedStock : option string;
  stockData : option StockData.t;
  connected : bool;
  signal : option Signal.t;
  trades : list Trade.t;
  profit : number;
  profitPercent : number;
  initialInvestment : number;
  priceHistory : list PricePoint.t;
  signalHistory : list Signal.t;
  timeframe : string;
  useMockData : bool
}.

(** The values given to the [useState] calls. *)
Definition initialState : State :=
  {| selectedStock := None;
     stockData := None;
     connected := false;
     signal := None;
     trades := [];
     profit := of_Z 0;
     profitPercent := of_Z 0;
     initialInvestment := of_Z 10000;
     priceHistory := [];
     signalHistory := [];
     timeframe := "5m";
     useMockData := true |}.

Definition setSelectedStock (v : option string) (s : State) : State :=
  mkState v (stockData s) (connected s) (signal s) (trades s) (profit s)
    (profitPercent s) (initialInvestment s) (priceHistory s)
    (signalHistory s) (timeframe s) (useMockData s).

Definition setStockData (v : option StockData.t) (s : State) : State :=
  mkState (selectedStock s) v (connected s) (signal s) (trades s) (profit s)
    (profitPercent s) (initialInvestment s) (priceHistory s)
    (signalHistory s) (timeframe s) (useMockData s).

Definition setConnected (v : bool) (s : State) : State :=
  mkState (selectedStock s) (stockData s) v (signal s) (trades s) (profit s)
    (profitPercent s) (initialInvestment s) (priceHistory s)
    (signalHistory s) (timeframe s) (useMockData s).

Definition setSignal (v : option Signal.t) (s : State) : State :=
  mkState (selectedStock s) (stockData s) (connected s) v (trades s)
    (profit s) (profitPercent s) (initialInvestment s) (priceHistory s)
    (signalHistory s) (timeframe s) (useMockData s).

(** [setTrades], [setPriceHistory] and [setSignalHistory] are also called
    with an updater function of the previous value. *)
Definition setTrades (f : list Trade.t -> list Trade.t) (s : State) : State :=
  mkState (selectedStock s) (stockData s) (connected s) (signal s)
    (f (trades s)) (profit s) (profitPercent s) (initialInvestment s)
    (priceHistory s) (signalHistory s) (timeframe s) (useMockData s).

Definition setProfit (v : number) (s : State) : State :=
  mkState (selectedStock s) (stockData s) (connected s) (signal s) (trades s)
    v (profitPercent s) (initialInvestment s) (priceHistory s)
    (signalHistory s) (timeframe s) (useMockData s).

Definition setProfitPercent (v : number) (s : State) : State :=
  mkState (selectedStock s) (stockData s) (connected s) (signal s) (trades s)
    (profit s) v (initialInvestment s) (priceHistory s)
    (signalHistory s) (timeframe s) (useMockData s).

Definition setPriceHistory (f : list PricePoint.t -> list PricePoint.t)
    (s : State) : State :=
  mkState (selectedStock s) (stockData s) (connected s) (signal s) (trades s)
    (profit s) (profitPercent s) (initialInvestment s) (f (priceHistory s))
    (signalHistory s) (timeframe s) (useMockData s).

Definition setSignalHistory (f : list Signal.t -> list Signal.t)
    (s : State) : State :=
  mkState (selectedStock s) (stockData s) (connected s) (signal s) (trades s)
    (profit s) (profitPercent s) (initialInvestment s) (priceHistory s)
    (f (signalHistory s)) (timeframe s) (useMockData s).

Definition setTimeframe (v : string) (s : State) : State :=
  mkState (selectedStock s) (stockData s) (connected s) (signal s) (trades s)
    (profit s) (profitPercent s) (initialInvestment s) (priceHistory s)
    (signalHistory s) v (useMockData s).

Definition setUseMockData (v : bool) (s : State) : State :=
  mkState (selectedStock s) (stockData s) (connected s) (signal s) (trades s)
    (profit s) (profitPercent s) (initialInvestment s) (priceHistory s)
    (signalHistory s) (timeframe s) v.

(** Truthiness of [selectedStock : string | null]. *)
Definition stock_selected (s : State) : bool :=
  match selectedStock s with
  | Some EmptyString | None => false
  | Some _ => true
  end.

(** [handleStockSelect] *)
Definition handleStockSelect (symbol : string) (s : State) : State :=
  setSignal None
    (setSignalHistory (fun _ => [])
      (setPriceHistory (fun _ => [])
        (setProfitPercent (of_Z 0)
          (setProfit (of_Z 0)
            (setTrades (fun _ => [])
              (setSelectedStock (Some symbol) s)))))).

(** [handleTimeframeSelect] *)
Definition handleTimeframeSelect (newTimeframe : string) (s : State) : State :=
  setSignalHistory (fun _ => [])
    (setPriceHistory (fun _ => [])
      (setTimeframe newTimeframe s)).

(** [toggleDataSource] *)
Definition toggleDataSource (s : State) : State :=
  let s1 := setUseMockData (negb (useMockData s)) s in
  if stock_selected s then
    setSignalHistory (fun _ => [])
      (setPriceHistory (fun _ => [])
        (setConnected false s1))
  else s1.

(** The state part of the [onConnect] and [onDisconnect] callbacks (the
    toast they show is presentation only). *)
Definition onConnect (s : State) : State := setConnected true s.
Definition onDisconnect (s : State) : State := setConnected false s.

(* ================================================================== *)
(** ** [calculateProfit] *)

(** The local variables of [calculateProfit]. *)
Record Ledger : Type := mkLedger {
  currentProfit : number;
  position : number;
  averageEntryPrice : number;
  totalInvested : number;
  totalReturned : number
}.

(** Their initial values. *)
Definition ledger0 : Ledger :=
  {| currentProfit := of_Z 0;
     position := of_Z 0;
     averageEntryPrice := of_Z 0;
     totalInvested := of_Z 0;
     totalReturned := of_Z 0 |}.

(** The divisor [totalShares] of the weighted-average update of a BUY. *)
Definition totalShares (l : Ledger) (trade : Trade.t) : number :=
  (position l + Trade.quantity trade)%num.

(** The body of [tradeList.forEach]. *)
Definition applyTrade (l : Ledger) (trade : Trade.t) : Ledger :=
  match Trade.type trade with
  | T_BUY =>
      let newShares := Trade.quantity trade in
      let newCost := (Trade.price trade * newShares)%num in
      {| currentProfit := currentProfit l;
         position := (position l + newShares)%num;
         averageEntryPrice :=
           ((averageEntryPrice l * position l + newCost)
              / totalShares l trade)%num;
         totalInvested := (totalInvested l + newCost)%num;
         totalReturned := totalReturned l |}
  | T_SELL =>
      let saleValue := (Trade.price trade * Trade.quantity trade)%num in
      let costBasis := (averageEntryPrice l * Trade.quantity trade)%num in
      {| currentProfit := (currentProfit l + (saleValue - costBasis))%num;
         position := (position l - Trade.quantity trade)%num;
         averageEntryPrice := averageEntryPrice l;
         totalInvested := totalInvested l;
         totalReturned := (totalReturned l + saleValue)%num |}
  end.

(** The loop over [tradeList], from a given ledger. *)
Definition replayFrom (l : Ledger) (tradeList : list Trade.t) : Ledger :=
  fold_left applyTrade tradeList l.

Definition replay (tradeList : list Trade.t) : Ledger :=
  replayFrom ledger0 tradeList.

(** [currentProfit] after the unrealized term has been added. *)
Definition combinedProfit (l : Ledger) (currentPrice : number) : number :=
  if (position l >? of_Z 0)%num then
    let unrealizedPL :=
      ((currentPrice - averageEntryPrice l) * position l)%num in
    (currentProfit l + unrealizedPL)%num
  else currentProfit l.

Definition profitPercentage (totalCost : number) (l : Ledger)
    (currentPrice : number) : number :=
  let totalValue := (totalReturned l + position l * currentPrice)%num in
  (((totalValue - totalCost) / totalCost) * of_Z 100)%num.

(** [calculateProfit tradeList currentPrice], run in state [s]: it reads
    [initialInvestment] and ends with [setProfit] and
    [setProfitPercent]. *)
Definition calculateProfit (tradeList : list Trade.t) (currentPrice : number)
    (s : State) : State :=
  let l := replay tradeList in
  let totalCost := initialInvestment s in
  setProfitPercent (profitPercentage totalCost l currentPrice)
    (setProfit (combinedProfit l currentPrice) s).

(** How a call completes.  The error kinds are those of the
    specification's error design. *)
Inductive ErrorKind : Type :=
| FeedConnectionError
| MalformedTickError
| InvalidConfiguration
| InsufficientPositionError.

Inductive Completion (A : Type) : Type :=
| Returns (a : A)
| Throws (e : ErrorKind).

Arguments Returns {A} a.
Arguments Throws {A} e.

(** [calculateProfit] has no [throw] statement and uses only arithmetic,
    comparisons and state setters, none of which throws: every call
    completes normally. *)
Definition calculateProfit_completion (tradeList : list Trade.t)
    (currentPrice : number) (s : State) : Completion State :=
  Returns (calculateProfit tradeList currentPrice s).

(* ================================================================== *)
(** ** [onMessage] *)

(** [l.slice(-n)]: the last [n] elements of [l], all of [l] when it has
    fewer. *)
Definition slice_last {A : Type} (n : nat) (l : list A) : list A :=
  skipn (List.length l - n) l.

(** The trade built for a signal: [newTrade] under the test
    [data.signal.type !== "HOLD"].  [now] is the value of [Date.now()]
    read while the object is built. *)
Definition newTrade (now : Z) (data : Message.t) (sig : Signal.t)
    : option Trade.t :=
  let currentPrice := StockData.currentPrice (Message.stockData data) in
  match Signal.type sig with
  | BUY => Some (Trade.mk T_BUY currentPrice (of_Z now) (of_Z 1))
  | SELL => Some (Trade.mk T_SELL currentPrice (of_Z now) (of_Z 1))
  | HOLD => None
  end.

(** The [onMessage] callback.  [closedTrades] is the value of [trades]
    that the callback closes over: the trade log of the render whose
    effect installed it, which is the current log for a callback
    installed after the last change of the log and an older log for a
    callback that outlives its effect.  [nowHistory] and [nowTrade] are
    its two reads of [Date.now()].  The state setters called with an
    updater function work on the current state [s]. *)
Definition onMessage (closedTrades : list Trade.t) (nowHistory nowTrade : Z)
    (data : Message.t) (s : State) : State :=
  let currentPrice := StockData.currentPrice (Message.stockData data) in
  let s1 := setStockData (Some (Message.stockData data)) s in
  let s2 :=
    setPriceHistory
      (fun prev =>
         slice_last 100
           (prev ++ [PricePoint.mk currentPrice (of_Z nowHistory)])) s1 in
  match Message.signal data with
  | Some sig =>
      let s3 := setSignal (Some sig) s2 in
      let s4 := setSignalHistory (fun prev => prev ++ [sig]) s3 in
      match newTrade nowTrade data sig with
      | Some t =>
          let s5 := setTrades (fun prev => prev ++ [t]) s4 in
          calculateProfit (closedTrades ++ [t]) currentPrice s5
      | None => s4
      end
  | None =>
      if (0 <? List.length closedTrades)%nat
      then calculateProfit closedTrades currentPrice s2
      else s2
  end.

(** One delivery of a message to the dashboard: the clock values read
    while it is handled, the message, and the trade log that the
    callback handling it closes over. *)
Record Delivery : Type := mkDelivery {
  nowHistory : Z;
  nowTrade : Z;
  payload : Message.t;
  closedTrades : list Trade.t
}.

Definition deliver (s : State) (d : Delivery) : State :=
  onMessage (closedTrades d) (nowHistory d) (nowTrade d) (payload d) s.

Definition deliverAll (s : State) (ds : list Delivery) : State :=
  fold_left deliver ds s.

(** The price point that a delivery appends to [priceHistory]. *)
Definition pointOf (d : Delivery) : PricePoint.t :=
  PricePoint.mk (StockData.currentPrice (Message.stockData (payload d)))
    (of_Z (nowHistory d)).

(* ================================================================== *)
(** ** The mock feed ([setupMockWebSocket], [lib/socket.ts]) *)

(** [table[key]] for the own keys of an object literal.  The keys that
    every object inherits ([constructor], [toString], ...) are not
    modelled: the symbol given to the feed is the selected stock, which
    the dashboard only ever takes from the ten entries of the selector. *)
Definition lookup {A : Type} (key : string) (table : list (string * A))
    : option A :=
  match find (fun kv => String.eqb (fst kv) key) table with
  | Some kv => Some (snd kv)
  | None => None
  end.

Definition basePrices : list (string * number) :=
  [ ("AAPL", Fin (1805 # 10)); ("MSFT", Fin (4102 # 10));
    ("GOOGL", Fin (1753 # 10)); ("AMZN", Fin (1856 # 10));
    ("META", Fin (5007 # 10)); ("TSLA", Fin (2408 # 10));
    ("NVDA", Fin (9502 # 10)); ("JPM", Fin (1984 # 10));
    ("V", Fin (2759 # 10)); ("JNJ", Fin (1523 # 10)) ]%string.

Definition stockNames : list (string * string) :=
  [ ("AAPL", "Apple Inc."); ("MSFT", "Microsoft Corporation");
    ("GOOGL", "Alphabet Inc."); ("AMZN", "Amazon.com Inc.");
    ("META", "Meta Platforms Inc."); ("TSLA", "Tesla Inc.");
    ("NVDA", "NVIDIA Corporation"); ("JPM", "JPMorgan Chase & Co.");
    ("V", "Visa Inc."); ("JNJ", "Johnson & Johnson") ]%string.

Definition getStockName (symbol : string) : string :=
  match lookup symbol stockNames with
  | Some EmptyString | None => "Unknown Stock"
  | Some n => n
  end.

(** [generateMockStockData]; [random] is its read of [Math.random()]. *)
Definition generateMockStockData (random : Q) (symbol : string)
    (lastPrice : option number) : StockData.t :=
  let basePrice := or_else (lookup symbol basePrices) (of_Z 100) in
  let previousPrice := or_else lastPrice basePrice in
  let changePercent :=
    ((Fin random * of_Z 2 - of_Z 1) * Fin (1 # 100))%num in
  let change := (previousPrice * changePercent)%num in
  let currentPrice := (previousPrice + change)%num in
  {| StockData.symbol := symbol;
     StockData.name := getStockName symbol;
     StockData.currentPrice := currentPrice;
     StockData.previousPrice := previousPrice;
     StockData.change := change;
     StockData.changePercent := (changePercent * of_Z 100)%num |}.

(** What one call of [generateSignal] reads from its environment, in
    order: [Date.now()] in the rate-limit test (read only when
    [lastSignalTime] is truthy), [Math.random()], and [Date.now()] for
    the timestamp of the signal. *)
Record SignalEnv : Type := mkSignalEnv {
  nowCheck : Z;
  random : Q;
  nowStamp : Z
}.

(** [lastSignalTime && Date.now() - lastSignalTime < 5000] *)
Definition tooFrequent (now : Z) (lastSignalTime : option number) : bool :=
  match lastSignalTime with
  | Some t => truthy t && (of_Z now - t <? of_Z 5000)%num
  | None => false
  end.

(** The classification of the random draw: [signalType]. *)
Definition signalType (random : Q) : SignalType :=
  if (Fin random <? Fin (15 # 100))%num then BUY
  else if (Fin random <? Fin (3 # 10))%num then SELL
  else HOLD.

(** [generateSignal] *)
Definition generateSignal (env : SignalEnv) (stockData : StockData.t)
    (lastSignal : option Signal.t) (lastSignalTime : option number)
    : option Signal.t :=
  if tooFrequent (nowCheck env) lastSignalTime then None
  else
    let ty := signalType (random env) in
    let emitted :=
      Some (Signal.mk ty (StockData.currentPrice stockData)
              (of_Z (nowStamp env))) in
    match lastSignal with
    | Some last =>
        if SignalType_eqb ty (Signal.type last) then None else emitted
    | None => emitted
    end.

(** The variables that the callbacks of [setupMockWebSocket] share. *)
Record MockFeed : Type := mkMockFeed {
  lastPrice : option number;
  lastSignal : option Signal.t;
  lastSignalTime : option number
}.

Definition mockFeed0 : MockFeed :=
  {| lastPrice := None; lastSignal := None; lastSignalTime := None |}.

(** The body of the [setTimeout] callback after [onConnect()]: the first
    quote, sent without a signal.  [random] is the draw of
    [generateMockStockData]. *)
Definition feedStart (random : Q) (symbol : string) : MockFeed * Message.t :=
  let initialStockData := generateMockStockData random symbol None in
  ({| lastPrice := Some (StockData.currentPrice initialStockData);
      lastSignal := None;
      lastSignalTime := None |},
   Message.mk initialStockData None).

(** What one run of the interval callback reads: the random draw of
    [generateMockStockData], then the reads of [generateSignal]. *)
Record TickEnv : Type := mkTickEnv {
  priceRandom : Q;
  signalEnv : SignalEnv
}.

(** The body of the [setInterval] callback: the new feed variables and
    the message passed to [onMessage]. *)
Definition intervalTick (symbol : string) (f : MockFeed) (env : TickEnv)
    : MockFeed * Message.t :=
  let stockData := generateMockStockData (priceRandom env) symbol (lastPrice f) in
  let signal :=
    generateSignal (signalEnv env) stockData (lastSignal f) (lastSignalTime f) in
  let f' :=
    match signal with
    | Some sig =>
        {| lastPrice := Some (StockData.currentPrice stockData);
           lastSignal := Some sig;
           lastSignalTime := Some (Signal.timestamp sig) |}
    | None =>
        {| lastPrice := Some (StockData.currentPrice stockData);
           lastSignal := lastSignal f;
           lastSignalTime := lastSignalTime f |}
    end in
  (f', Message.mk stockData signal).

(** The messages of successive runs of the interval callback. *)
Fixpoint runFeed (symbol : string) (f : MockFeed) (envs : list TickEnv)
    : list Message.t :=
  match envs with
  | [] => []
  | env :: rest =>
      let '(f', m) := intervalTick symbol f env in
      m :: runFeed symbol f' rest
  end.

(** The signals that a list of messages carries, in order. *)
Fixpoint emittedSignals (ms : list Message.t) : list Signal.t :=
  match ms with
  | [] => []
  | m :: rest =>
      match Message.signal m with
      | Some sig => sig :: emittedSignals rest
      | None => emittedSignals rest
      end
  end.

(* ================================================================== *)
(** ** Vocabulary of the properties *)

(** A trade of the data model: a finite price, and a finite, strictly
    positive quantity. *)
Definition wellFormed (t : Trade.t) : Prop :=
  finite (Trade.price t) /\ finite (Trade.quantity t)
  /\ (of_Z 0 <? Trade.quantity t)%num = true.

Definition isBuy (t : Trade.t) : Prop := Trade.type t = T_BUY.

(** [sum(qi*pi)] and [sum(qi)] over a trade log. *)
Definition sumCost (log : list Trade.t) : number :=
  fold_right (fun t acc => (Trade.price t * Trade.quantity t + acc)%num)
    (of_Z 0) log.

Definition sumQuantity (log : list Trade.t) : number :=
  fold_right (fun t acc => (Trade.quantity t + acc)%num) (of_Z 0) log.

(** The trade log of scenario B: buy one share at 100, sell it at 120. *)
Definition buy1At (p : Z) (time : number) : Trade.t :=
  Trade.mk T_BUY (of_Z p) time (of_Z 1).

Definition sell1At (p : Z) (time : number) : Trade.t :=
  Trade.mk T_SELL (of_Z p) time (of_Z 1).


(** The precondition of a SELL, checked along the replay: every sale
    finds [position >= quantity]. *)
Fixpoint sellsCovered (l : Ledger) (log : list Trade.t) : bool :=
  match log with
  | [] => true
  | t :: rest =>
      match Trade.type t with
      | T_SELL => (position l >=? Trade.quantity t)%num
      | T_BUY => true
      end
      && sellsCovered (applyTrade l t) rest
  end.

(** The value of [position] after each trade of the replay. *)
Fixpoint positionsFrom (l : Ledger) (log : list Trade.t) : list number :=
  match log with
  | [] => []
  | t :: rest =>
      position (applyTrade l t) :: positionsFrom (applyTrade l t) rest
  end.

(** The divisor [totalShares] of each BUY of the replay. *)
Fixpoint divisorsFrom (l : Ledger) (log : list Trade.t) : list number :=
  match log with
  | [] => []
  | t :: rest =>
      match Trade.type t with
      | T_BUY => totalShares l t :: divisorsFrom (applyTrade l t) rest
      | T_SELL => divisorsFrom (applyTrade l t) rest
      end
  end.

Definition nonNegative (x : number) : bool := (of_Z 0 <=? x)%num.
Definition strictlyPositive (x : number) : bool := (of_Z 0 <? x)%num.

(** What can happen to the dashboard: the user's selections and the
    callbacks of the feed. *)
Inductive Event : Type :=
| SelectStock (symbol : string)
| SelectTimeframe (newTimeframe : string)
| ToggleDataSource
| FeedConnected
| FeedDisconnected
| FeedMessage (d : Delivery).

Definition step (s : State) (e : Event) : State :=
  match e with
  | SelectStock symbol => handleStockSelect symbol s
  | SelectTimeframe tf => handleTimeframeSelect tf s
  | ToggleDataSource => toggleDataSource s
  | FeedConnected => onConnect s
  | FeedDisconnected => onDisconnect s
  | FeedMessage d => deliver s d
  end.

Definition run (s : State) (events : list Event) : State :=
  fold_left step events s.

(** A state the dashboard can be in. *)
Definition reachable (s : State) : Prop :=
  exists events, s = run initialState events.

(** No two neighbours of a list of signals have the same type. *)
Fixpoint alternating (sigs : list Signal.t) : Prop :=
  match sigs with
  | [] => True
  | a :: rest =>
      match rest with
      | [] => True
      | b :: _ => Signal.type a <> Signal.type b
      end
      /\ alternating rest
  end.

(** The signals of a feed whose last emitted signal is [last]. *)
Definition afterLast (last : option Signal.t) (sigs : list Signal.t)
    : list Signal.t :=
  match last with
  | Some sig => sig :: sigs
  | None => sigs
  end.

(** Inputs used as examples: a log that sells a share never bought, a
    log that buys after such a sale, and a dashboard state whose initial
    investment is zero. *)
Definition oversoldLog : list Trade.t := [sell1At 100 (of_Z 1)].

Definition sellThenBuyLog : list Trade.t :=
  [sell1At 100 (of_Z 1); buy1At 90 (of_Z 2)].

Definition twoBuysLog : list Trade.t :=
  [Trade.mk T_BUY (of_Z 100) (of_Z 1) (of_Z 1);
   Trade.mk T_BUY (of_Z 200) (of_Z 2) (of_Z 3)].

Definition roundTripLog : list Trade.t :=
  [buy1At 100 (of_Z 1); sell1At 120 (of_Z 2)].

Definition zeroInvestmentState : State :=
  mkState None None false None [] (of_Z 0) (of_Z 0) (of_Z 0) [] [] "5m" true.

(** The signal type that a trade type stands for. *)
Definition kindOf (ty : TradeType) : SignalType :=
  match ty with
  | T_BUY => BUY
  | T_SELL => SELL
  end.

(** A message of the kind the real backend can send: the signal was
    computed at price 100 and time 5000, the quote of the message is
    101. *)
Definition staleSignal : Signal.t := Signal.mk BUY (of_Z 100) (of_Z 5000).

Definition holdSignal : Signal.t := Signal.mk HOLD (of_Z 100) (of_Z 5000).

Definition staleMessage : Message.t :=
  Message.mk
    (StockData.mk "AAPL" "Apple Inc." (of_Z 101) (of_Z 100) (of_Z 1) (of_Z 1))
    (Some staleSignal).

(** One call of [generateSignal] by a caller that keeps the last emitted
    signal: what the call reads, the stock data it is given and the
    last-signal time it is given. *)
Record Call : Type := mkCall {
  callEnv : SignalEnv;
  callData : StockData.t;
  callLastTime : option number
}.

(** The caller's [lastSignal] after a call that returned [r]. *)
Definition keepLast (last r : option Signal.t) : option Signal.t :=
  match r with
  | Some sig => Some sig
  | None => last
  end.

(** The results of successive calls when the caller updates its
    [lastSignal] with each emitted signal, as the interval callback
    does. *)
Fixpoint generateAll (last : option Signal.t) (calls : list Call)
    : list (option Signal.t) :=
  match calls with
  | [] => []
  | c :: rest =>
      let r := generateSignal (callEnv c) (callData c) last (callLastTime c) in
      r :: generateAll (keepLast last r) rest
  end.

(** The signals among the results of a sequence of calls. *)
Fixpoint somes {A : Type} (l : list (option A)) : list A :=
  match l with
  | [] => []
  | Some a :: rest => a :: somes rest
  | None :: rest => somes rest
  end.

(** 101 deliveries without a signal, numbered by their time. *)
Definition tickAt (n : nat) : Delivery :=
  mkDelivery (Z.of_nat n) (Z.of_nat n)
    (Message.mk
       (StockData.mk "AAPL" "Apple Inc." (of_Z 180) (of_Z 180) (of_Z 0)
          (of_Z 0))
       None)
    [].

(** Two runs of the interval callback, 3 seconds apart, the first at
    clock value 0; the draws classify as BUY and as SELL. *)
Definition tickAtEpoch : TickEnv :=
  mkTickEnv (1 # 2) (mkSignalEnv 0 (1 # 10) 0).

Definition tickThreeSecondsLater : TickEnv :=
  mkTickEnv (1 # 2) (mkSignalEnv 3000 (2 # 10) 3000).

(** Two runs of the interval callback whose draws classify as BUY and
    as SELL, 3 and 6 seconds apart. *)
Definition tickBuyAt (now : Z) : TickEnv :=
  mkTickEnv (1 # 2) (mkSignalEnv now (1 # 10) now).

Definition tickSellAt (now : Z) : TickEnv :=
  mkTickEnv (1 # 2) (mkSignalEnv now (2 # 10) now).

(* ================================================================== *)
(** ** Further vocabulary: the dashboard over a run of events *)

(** The trade, if any, that a delivery appends to the trade log. *)
Definition tradeOf (d : Delivery) : list Trade.t :=
  match Message.signal (payload d) with
  | Some sig =>
      match newTrade (nowTrade d) (payload d) sig with
      | Some t => [t]
      | None => []
      end
  | None => []
  end.

(** The signal, if any, that a delivery carries. *)
Definition signalOf (d : Delivery) : list Signal.t :=
  match Message.signal (payload d) with
  | Some sig => [sig]
  | None => []
  end.

(** The quote of a delivery. *)
Definition quoteOf (d : Delivery) : number :=
  StockData.currentPrice (Message.stockData (payload d)).

(** A trade as [onMessage] makes them: one share, stamped by the
    clock. *)
Definition unitTrade (t : Trade.t) : Prop :=
  Trade.quantity t = of_Z 1 /\ exists z, Trade.timestamp t = of_Z z.

Definition isBuyb (t : Trade.t) : bool :=
  match Trade.type t with T_BUY => true | T_SELL => false end.

Definition isSellb (t : Trade.t) : bool := negb (isBuyb t).

Definition countBuys (log : list Trade.t) : nat :=
  List.length (filter isBuyb log).

Definition countSells (log : list Trade.t) : nat :=
  List.length (filter isSellb log).

Definition isSelectStock (e : Event) : bool :=
  match e with
  | SelectStock _ => true
  | _ => false
  end.

(** What a stock selection resets and what the later events then
    determine: two states agree on it. *)
Definition sameSession (s1 s2 : State) : Prop :=
  selectedStock s1 = selectedStock s2
  /\ signal s1 = signal s2
  /\ trades s1 = trades s2
  /\ profit s1 = profit s2
  /\ profitPercent s1 = profitPercent s2
  /\ initialInvestment s1 = initialInvestment s2
  /\ priceHistory s1 = priceHistory s2
  /\ signalHistory s1 = signalHistory s2.

(** The deliveries of [staleMessage] and of a HOLD message at time 5007
    to a callback that closes over an empty trade log. *)
Definition staleDelivery : Delivery := mkDelivery 5007 5007 staleMessage [].

Definition holdDelivery : Delivery :=
  mkDelivery 5007 5007
    (Message.mk (Message.stockData staleMessage) (Some holdSignal)) [].

(** A short session: a stock is selected, a BUY message arrives, the
    timeframe is changed. *)
Definition shortSession : list Event :=
  [SelectStock "AAPL"; FeedMessage staleDelivery; SelectTimeframe "1d"].

(** A delivery that carries a signal of the given type, priced at the
    quote [p] of its message and stamped [now], to a callback that
    closes over the log [closed]. *)
Definition signalDelivery (ty : SignalType) (p now : Z)
    (closed : list Trade.t) : Delivery :=
  mkDelivery now now
    (Message.mk
       (StockData.mk "AAPL" "Apple Inc." (of_Z p) (of_Z p) (of_Z 0) (of_Z 0))
       (Some (Signal.mk ty (of_Z p) (of_Z now))))
    closed.

(** The time values of ECMAScript, which [Date.now()] returns: integers
    of at most 8.64e15 in absolute value.  A binary64 number holds each
    of them exactly, and so their differences. *)
Definition timeValue (z : Z) : Prop :=
  (- 8640000000000000 <= z <= 8640000000000000)%Z.

(** In a list of messages, the [previousPrice] of each is the
    [currentPrice] of the message before it when that one is truthy, and
    the base price of the symbol otherwise; [prev] is the [currentPrice]
    before the first message. *)
Fixpoint chained (symbol : string) (prev : number) (ms : list Message.t)
    : Prop :=
  match ms with
  | [] => True
  | m :: rest =>
      StockData.previousPrice (Message.stockData m)
      = (if truthy prev then prev
         else or_else (lookup symbol basePrices) (of_Z 100))
      /\ chained symbol (StockData.currentPrice (Message.stockData m)) rest
  end.

(** A SELL at 100 and a BUY at 90, each handled by a callback that
    closes over the trade log as it is then. *)
Definition shortSaleThenBuy : list Delivery :=
  [signalDelivery SELL 100 1000 [];
   signalDelivery BUY 90 7000
     [Trade.mk T_SELL (of_Z 100) (of_Z 1000) (of_Z 1)]].

(* ================================================================== *)
(** ** Further vocabulary: the mock feed over a run of ticks *)

(** The clock does not run backwards within a call of [generateSignal]
    and does not read zero when it stamps a signal. *)
Definition clockOk (env : TickEnv) : Prop :=
  (nowCheck (signalEnv env) <= nowStamp (signalEnv env))%Z
  /\ nowStamp (signalEnv env) <> 0%Z.

(** Neighbouring signals are stamped at least 5000 ms apart. *)
Fixpoint spaced (sigs : list Signal.t) : Prop :=
  match sigs with
  | [] => True
  | a :: rest =>
      match rest with
      | [] => True
      | b :: _ =>
          (of_Z 5000 <=? Signal.timestamp b - Signal.timestamp a)%num = true
      end
      /\ spaced rest
  end.

(** The feed variables agree with the last signal emitted: its time is
    a clock value other than zero and is what [lastSignalTime] holds. *)
Definition feedOk (f : MockFeed) : Prop :=
  match lastSignal f with
  | Some sig =>
      exists z, z <> 0%Z /\ Signal.timestamp sig = of_Z z
                /\ lastSignalTime f = Some (of_Z z)
  | None => True
  end.

(* ================================================================== *)
(** ** The price chart ([components/price-chart.tsx]) *)

(** [Math.abs] *)
Definition Math_abs (x : number) : number :=
  match x with
  | Fin q => Fin (Qabs q)
  | PosInf | NegInf => PosInf
  | NaN => NaN
  end.

(** [arr[arr.length - 1]] *)
Fixpoint lastOf {A : Type} (l : list A) : option A :=
  match l with
  | [] => None
  | x :: rest =>
      match rest with
      | [] => Some x
      | _ :: _ => lastOf rest
      end
  end.

(** ["profit" | "loss"] *)
Inductive ProfitStatus : Type := StatusProfit | StatusLoss.

(** An entry of [chartData]. *)
Module ChartPoint.
Record t : Type := mk {
  price : number;
  time : string;
  timestamp : number;
  signal : option SignalType;
  trade : option TradeType;
  profitStatus : option ProfitStatus
}.
End ChartPoint.

Section PriceChart.

(** [new Date(timestamp).toLocaleTimeString()], which depends on the
    locale and time zone of the browser. *)
Variable toLocaleTimeString : number -> string.

(** [Math.abs(a - b) < 1000] *)
Definition withinOneSecond (a b : number) : bool :=
  (Math_abs (a - b) <? of_Z 1000)%num.

(** The computation of [profitStatus] for one point. *)
Definition profitStatusAt (trades : list Trade.t) (point : PricePoint.t)
    : option ProfitStatus :=
  if (0 <? List.length trades)%nat then
    let previousTrades :=
      filter (fun t => (Trade.timestamp t <? PricePoint.timestamp point)%num)
        trades in
    if (0 <? List.length previousTrades)%nat then
      match lastOf previousTrades with
      | Some lastTrade =>
          match Trade.type lastTrade with
          | T_BUY =>
              Some (if (PricePoint.price point >? Trade.price lastTrade)%num
                    then StatusProfit else StatusLoss)
          | T_SELL =>
              Some (if (PricePoint.price point <? Trade.price lastTrade)%num
                    then StatusProfit else StatusLoss)
          end
      | None => None
      end
    else None
  else None.

(** The function mapped over [priceData]. *)
Definition chartPoint (signalData : list Signal.t) (trades : list Trade.t)
    (point : PricePoint.t) : ChartPoint.t :=
  let signal :=
    find (fun s =>
            withinOneSecond (Signal.timestamp s) (PricePoint.timestamp point))
      signalData in
  let trade :=
    find (fun t =>
            withinOneSecond (Trade.timestamp t) (PricePoint.timestamp point))
      trades in
  {| ChartPoint.price := PricePoint.price point;
     ChartPoint.time := toLocaleTimeString (PricePoint.timestamp point);
     ChartPoint.timestamp := PricePoint.timestamp point;
     ChartPoint.signal := option_map Signal.type signal;
     ChartPoint.trade := option_map Trade.type trade;
     ChartPoint.profitStatus := profitStatusAt trades point |}.

Definition combinedData (priceData : list PricePoint.t)
    (signalData : list Signal.t) (trades : list Trade.t)
    : list ChartPoint.t :=
  map (chartPoint signalData trades) priceData.

(** The effect of the chart: [chartData] is left as it is when
    [priceData] is empty. *)
Definition chartEffect (chartData : list ChartPoint.t)
    (priceData : list PricePoint.t) (signalData : list Signal.t)
    (trades : list Trade.t) : list ChartPoint.t :=
  if (List.length priceData =? 0)%nat then chartData
  else combinedData priceData signalData trades.

End PriceChart.

(** The trade is stamped before the point. *)
Definition before (point : PricePoint.t) (t : Trade.t) : bool :=
  (Trade.timestamp t <? PricePoint.timestamp point)%num.

(** The status of a point against a given trade. *)
Definition statusAgainst (t : Trade.t) (point : PricePoint.t)
    : ProfitStatus :=
  match Trade.type t with
  | T_BUY =>
      if (PricePoint.price point >? Trade.price t)%num
      then StatusProfit else StatusLoss
  | T_SELL =>
      if (PricePoint.price point <? Trade.price t)%num
      then StatusProfit else StatusLoss
  end.

(* ================================================================== *)
(** ** The stock selector ([components/stock-selector.tsx]) *)

(** The [stocks] offered for selection: symbol and name. *)
Definition stocks : list (string * string) :=
  [ ("AAPL", "Apple Inc."); ("MSFT", "Microsoft Corporation");
    ("GOOGL", "Alphabet Inc."); ("AMZN", "Amazon.com Inc.");
    ("META", "Meta Platforms Inc."); ("TSLA", "Tesla Inc.");
    ("NVDA", "NVIDIA Corporation"); ("JPM", "JPMorgan Chase & Co.");
    ("V", "Visa Inc."); ("JNJ", "Johnson & Johnson") ]%string.

(* ================================================================== *)
(** ** [calculateProfit] in binary64 arithmetic *)

Module IEEE.

Import PrimFloat.

(** A [Trade] whose numbers are binary64 values. *)
Record Trade : Type := mkTrade {
  type : TradeType;
  price : float;
  timestamp : float;
  quantity : float
}.

(** The local variables of [calculateProfit]. *)
Record Ledger : Type := mkLedger {
  currentProfit : float;
  position : float;
  averageEntryPrice : float;
  totalInvested : float;
  totalReturned : float
}.

Definition ledger0 : Ledger :=
  {| currentProfit := 0;
     position := 0;
     averageEntryPrice := 0;
     totalInvested := 0;
     totalReturned := 0 |}.

(** The body of [tradeList.forEach]. *)
Definition applyTrade (l : Ledger) (trade : Trade) : Ledger :=
  match type trade with
  | T_BUY =>
      let newShares := quantity trade in
      let newCost := (price trade * newShares)%float in
      let totalShares := (position l + newShares)%float in
      {| currentProfit := currentProfit l;
         position := (position l + newShares)%float;
         averageEntryPrice :=
           ((averageEntryPrice l * position l + newCost) / totalShares)%float;
         totalInvested := (totalInvested l + newCost)%float;
         totalReturned := totalReturned l |}
  | T_SELL =>
      let saleValue := (price trade * quantity trade)%float in
      let costBasis := (averageEntryPrice l * quantity trade)%float in
      {| currentProfit := (currentProfit l + (saleValue - costBasis))%float;
         position := (position l - quantity trade)%float;
         averageEntryPrice := averageEntryPrice l;
         totalInvested := totalInvested l;
         totalReturned := (totalReturned l + saleValue)%float |}
  end.

Definition replayFrom (l : Ledger) (tradeList : list Trade) : Ledger :=
  fold_left applyTrade tradeList l.

Definition replay (tradeList : list Trade) : Ledger :=
  replayFrom ledger0 tradeList.

Definition combinedProfit (l : Ledger) (currentPrice : float) : float :=
  if (0 <? position l)%float then
    let unrealizedPL :=
      ((currentPrice - averageEntryPrice l) * position l)%float in
    (currentProfit l + unrealizedPL)%float
  else currentProfit l.

Definition profitPercentage (totalCost : float) (l : Ledger)
    (currentPrice : float) : float :=
  let totalValue := (totalReturned l + position l * currentPrice)%float in
  (((totalValue - totalCost) / totalCost) * 100)%float.

(** [calculateProfit]: the values it gives to [setProfit] and to
    [setProfitPercent], for the [initialInvestment] it reads. *)
Definition calculateProfit (initialInvestment : float)
    (tradeList : list Trade) (currentPrice : float) : float * float :=
  let l := replay tradeList in
  (combinedProfit l currentPrice,
   profitPercentage initialInvestment l currentPrice).

(** Vocabulary: a purchase; the sums of the quantities and of
    price*quantity, added from left to right as the replay adds them. *)
Definition isBuy (t : Trade) : Prop := type t = T_BUY.

Definition isBuyb (t : Trade) : bool :=
  match type t with T_BUY => true | T_SELL => false end.

Definition isSellb (t : Trade) : bool := negb (isBuyb t).

Definition sumQuantity (log : list Trade) : float :=
  fold_left (fun acc t => (acc + quantity t)%float) log 0%float.

Definition sumCost (log : list Trade) : float :=
  fold_left (fun acc t => (acc + price t * quantity t)%float) log 0%float.

(** One share bought or sold at [p]. *)
Definition buy1 (p time : float) : Trade := mkTrade T_BUY p time 1.
Definition sell1 (p time : float) : Trade := mkTrade T_SELL p time 1.



End IEEE.
(* ================================================================== *)
(** * Properties *)

(** ** Numbers *)

Lemma eqvb_eqv (x y : number) : eqvb x y = true <-> (x =~ y)%num.
Proof.
  destruct x, y; simpl; try (split; (discriminate || tauto)).
  apply Qeq_bool_iff.
Qed.

Lemma eqv_refl (x : number) : (x =~ x)%num.
Proof. destruct x; simpl; auto. reflexivity. Qed.

Lemma eqv_sym (x y : number) : (x =~ y)%num -> (y =~ x)%num.
Proof. destruct x, y; simpl; auto. intros H; symmetry; exact H. Qed.

Lemma eqv_trans (x y z : number) :
  (x =~ y)%num -> (y =~ z)%num -> (x =~ z)%num.
Proof.
  destruct x, y, z; simpl; auto; try contradiction.
  intros H1 H2; rewrite H1; exact H2.
Qed.

Lemma ltb_Fin (a b : Q) : (Fin a <? Fin b)%num = true <-> a < b.
Proof.
  simpl. rewrite Qlt_alt. destruct (a ?= b); split; congruence.
Qed.

Lemma leb_Fin (a b : Q) : (Fin a <=? Fin b)%num = true <-> a <= b.
Proof. simpl. apply Qle_bool_iff. Qed.

Lemma div_Fin (a b : Q) : ~ b == 0 -> (Fin a / Fin b)%num = Fin (a / b).
Proof.
  intros Hb. simpl. destruct (Qeq_bool b 0) eqn:E; auto.
  apply Qeq_bool_iff in E. contradiction.
Qed.

(** Dividing by zero never gives a finite number. *)
Lemma div_zero_not_finite (x y : number) :
  (y =~ of_Z 0)%num -> ~ finite (x / y)%num.
Proof.
  destruct y as [b| | |]; simpl; try contradiction.
  intros Hb. unfold inject_Z in Hb.
  destruct x as [a| | |]; simpl; auto.
  - apply Qeq_bool_iff in Hb. rewrite Hb.
    destruct (a ?= 0); simpl; auto.
  - destruct (Qle_bool 0 b); simpl; auto.
  - destruct (Qle_bool 0 b); simpl; auto.
Qed.

Lemma mul_not_finite_l (x y : number) : ~ finite x -> ~ finite (x * y)%num.
Proof.
  destruct x as [a| | |]; simpl; intros H; try (exfalso; apply H; exact I).
  - destruct y; simpl; auto.
    destruct (q ?= 0); simpl; auto.
  - destruct y; simpl; auto.
    destruct (q ?= 0); simpl; auto.
  - destruct y; simpl; auto.
Qed.

(** ** The replay of [calculateProfit] *)

Lemma replayFrom_app (l : Ledger) (log1 log2 : list Trade.t) :
  replayFrom l (log1 ++ log2) = replayFrom (replayFrom l log1) log2.
Proof. unfold replayFrom. apply fold_left_app. Qed.

Lemma replay_snoc (log : list Trade.t) (t : Trade.t) :
  replay (log ++ [t]) = applyTrade (replay log) t.
Proof. unfold replay. rewrite replayFrom_app. reflexivity. Qed.

Lemma applyTrade_BUY (l : Ledger) (t : Trade.t) :
  Trade.type t = T_BUY ->
  applyTrade l t =
    {| currentProfit := currentProfit l;
       position := (position l + Trade.quantity t)%num;
       averageEntryPrice :=
         ((averageEntryPrice l * position l
           + Trade.price t * Trade.quantity t)
          / (position l + Trade.quantity t))%num;
       totalInvested :=
         (totalInvested l + Trade.price t * Trade.quantity t)%num;
       totalReturned := totalReturned l |}.
Proof. intros H. unfold applyTrade, totalShares. rewrite H. reflexivity. Qed.

Lemma applyTrade_SELL (l : Ledger) (t : Trade.t) :
  Trade.type t = T_SELL ->
  applyTrade l t =
    {| currentProfit :=
         (currentProfit l
          + (Trade.price t * Trade.quantity t
             - averageEntryPrice l * Trade.quantity t))%num;
       position := (position l - Trade.quantity t)%num;
       averageEntryPrice := averageEntryPrice l;
       totalInvested := totalInvested l;
       totalReturned :=
         (totalReturned l + Trade.price t * Trade.quantity t)%num |}.
Proof. intros H. unfold applyTrade. rewrite H. reflexivity. Qed.

Lemma wellFormed_inv (t : Trade.t) :
  wellFormed t ->
  exists p q, Trade.price t = Fin p /\ Trade.quantity t = Fin q /\ 0 < q.
Proof.
  intros (Hp & Hq & Hpos).
  destruct (Trade.price t) as [p| | |]; try contradiction.
  destruct (Trade.quantity t) as [q| | |]; try contradiction.
  exists p, q. repeat split. apply ltb_Fin in Hpos. exact Hpos.
Qed.

Lemma sums_finite (log : list Trade.t) :
  Forall wellFormed log ->
  exists c n, sumCost log = Fin c /\ sumQuantity log = Fin n /\ 0 <= n
              /\ (log <> [] -> 0 < n).
Proof.
  induction 1 as [|t log Ht _ IH].
  - exists 0, 0. repeat split; try reflexivity; try lra. congruence.
  - destruct IH as (c & n & Hc & Hn & Hn0 & _).
    destruct (wellFormed_inv t Ht) as (p & q & Hp & Hq & Hq0).
    exists (p * q + c), (q + n). simpl. rewrite Hc, Hn, Hp, Hq.
    repeat split; try lra.
Qed.

(** Invariant of a replay of purchases only: the position is finite and
    non-negative, and average times position is the cost accumulated. *)
Lemma replayFrom_buys (log : list Trade.t) :
  Forall wellFormed log -> Forall isBuy log ->
  forall (l : Ledger) (a n c m : Q),
    averageEntryPrice l = Fin a -> position l = Fin n -> 0 <= n ->
    sumCost log = Fin c -> sumQuantity log = Fin m ->
    exists a' n',
      averageEntryPrice (replayFrom l log) = Fin a'
      /\ position (replayFrom l log) = Fin n'
      /\ n' == n + m
      /\ a' * n' == a * n + c.
Proof.
  induction 1 as [|t log Ht Hwf IH]; intros Hb l a n c m Ha Hn Hn0 Hc Hm.
  - simpl in *. injection Hc as <-. injection Hm as <-.
    exists a, n. unfold inject_Z. repeat split; auto; lra.
  - inversion Hb as [|? ? Hbt Hbl]; subst.
    destruct (wellFormed_inv t Ht) as (p & q & Hp & Hq & Hq0).
    destruct (sums_finite log Hwf) as (c1 & m1 & Hc1 & Hm1 & Hm10 & _).
    simpl in Hc, Hm. rewrite Hc1, Hp, Hq in Hc. rewrite Hm1, Hq in Hm.
    simpl in Hc, Hm. injection Hc as <-. injection Hm as <-.
    assert (Hdiv : ~ n + q == 0) by lra.
    specialize (IH Hbl (applyTrade l t) ((a * n + p * q) / (n + q)) (n + q)
                  c1 m1).
    destruct IH as (a' & n' & Ha' & Hn' & En & Ea); auto.
    + rewrite (applyTrade_BUY l t Hbt). simpl. rewrite Ha, Hn, Hp, Hq.
      change (Fin a * Fin n + Fin p * Fin q)%num with (Fin (a * n + p * q)).
      change (Fin n + Fin q)%num with (Fin (n + q)).
      apply div_Fin. exact Hdiv.
    + rewrite (applyTrade_BUY l t Hbt). simpl. rewrite Hn, Hq. reflexivity.
    + lra.
    + exists a', n'. simpl. repeat split; auto.
      * rewrite En. ring.
      * rewrite Ea. field. exact Hdiv.
Qed.

(** The update of the average entry price is that of a weighted mean:
    over [Num.number], where finite values do not round, a replay of
    purchases only ends with sum(qi*pi)/sum(qi) as average entry price
    and sum(qi) as position. *)
Lemma replay_buys_average (log : list Trade.t) :
  Forall wellFormed log -> Forall isBuy log -> log <> [] ->
  (averageEntryPrice (replay log) =~ sumCost log / sumQuantity log)%num
  /\ (position (replay log) =~ sumQuantity log)%num.
Proof.
  intros Hwf Hb Hne.
  destruct (sums_finite log Hwf) as (c & m & Hc & Hm & _ & Hpos).
  specialize (Hpos Hne).
  destruct (replayFrom_buys log Hwf Hb ledger0 0 0 c m)
    as (a' & n' & Ha' & Hn' & En & Ea); auto; try lra.
  unfold replay. rewrite Ha', Hn', Hc, Hm.
  rewrite div_Fin by lra. simpl. split.
  - assert (Hn'0 : ~ n' == 0) by lra.
    assert (E : a' == (a' * n') / n') by (field; exact Hn'0).
    rewrite E, Ea, En. field. lra.
  - rewrite En. ring.
Qed.

Lemma calculateProfit_profit (log : list Trade.t) (p : number) (s : State) :
  profit (calculateProfit log p s) = combinedProfit (replay log) p.
Proof. reflexivity. Qed.

Lemma calculateProfit_profitPercent (log : list Trade.t) (p : number)
    (s : State) :
  profitPercent (calculateProfit log p s)
  = profitPercentage (initialInvestment s) (replay log) p.
Proof. reflexivity. Qed.

(** Scenario A: one share bought at 100, current price 110, initial
    investment 10000. *)
Example calculateProfit_open_position :
  (profit (calculateProfit [buy1At 100 (of_Z 1)] (of_Z 110) initialState)
     =~ of_Z 10)%num
  /\ (profitPercent
        (calculateProfit [buy1At 100 (of_Z 1)] (of_Z 110) initialState)
        =~ Fin (- (989 # 10)))%num.
Proof. split; vm_compute; reflexivity. Qed.

(** Two shares at 100 and one at 130 average to 110. *)
Example replay_average_of_three :
  (averageEntryPrice
     (replay [buy1At 100 (of_Z 1); buy1At 100 (of_Z 2); buy1At 130 (of_Z 3)])
     =~ of_Z 110)%num.
Proof. vm_compute. reflexivity. Qed.

Section Doubles.

Import PrimFloat.






End Doubles.

(** ** Sign of the position along the replay *)

Lemma leb_zero_not_gtb (x : number) :
  (x <=? of_Z 0)%num = true -> (x >? of_Z 0)%num = false.
Proof.
  destruct x as [a| | |]; simpl; try reflexivity; try discriminate.
  intros H. apply Qle_bool_iff in H. unfold gtb. simpl.
  destruct (inject_Z 0 ?= a) eqn:E; try reflexivity.
  apply Qlt_alt in E. unfold inject_Z in *. lra.
Qed.

(** Along a replay of well-formed trades from a finite non-negative
    position, the position stays non-negative exactly when every sale is
    covered. *)
Lemma positions_nonNegative_iff (log : list Trade.t) :
  Forall wellFormed log ->
  forall (l : Ledger) (n : Q),
    position l = Fin n -> 0 <= n ->
    forallb nonNegative (positionsFrom l log) = sellsCovered l log.
Proof.
  induction 1 as [|t log Ht Hwf IH]; intros l n Hn Hn0; [reflexivity|].
  destruct (wellFormed_inv t Ht) as (p & q & Hp & Hq & Hq0).
  cbn [positionsFrom sellsCovered forallb].
  destruct (Trade.type t) eqn:Ety.
  - assert (Hposn : position (applyTrade l t) = Fin (n + q)).
    { rewrite (applyTrade_BUY l t Ety). simpl. rewrite Hn, Hq. reflexivity. }
    rewrite Hposn.
    assert (Hpos : nonNegative (Fin (n + q)) = true).
    { apply leb_Fin. unfold inject_Z. lra. }
    rewrite Hpos. simpl. apply (IH _ (n + q)); auto. lra.
  - assert (Hposn : position (applyTrade l t) = Fin (n + - q)).
    { rewrite (applyTrade_SELL l t Ety). simpl. rewrite Hn, Hq. reflexivity. }
    rewrite Hposn, Hn, Hq. unfold geb, nonNegative.
    destruct (Fin q <=? Fin n)%num eqn:Ecov.
    + apply leb_Fin in Ecov.
      assert (Hpos : (of_Z 0 <=? Fin (n + - q))%num = true).
      { apply leb_Fin. unfold inject_Z. lra. }
      rewrite Hpos. simpl. apply (IH _ (n + - q)); auto. lra.
    + assert (Hneg : (of_Z 0 <=? Fin (n + - q))%num = false).
      { destruct (of_Z 0 <=? Fin (n + - q))%num eqn:E; auto.
        apply leb_Fin in E. unfold inject_Z in E.
        assert (Hc : (Fin q <=? Fin n)%num = true) by (apply leb_Fin; lra).
        congruence. }
      rewrite Hneg. reflexivity.
Qed.

(** With every sale covered, every divisor of a weighted-average update
    is finite and strictly positive. *)
Lemma divisors_positive (log : list Trade.t) :
  Forall wellFormed log ->
  forall (l : Ledger) (n : Q),
    position l = Fin n -> 0 <= n ->
    sellsCovered l log = true ->
    Forall (fun d => finite d /\ strictlyPositive d = true)
      (divisorsFrom l log).
Proof.
  induction 1 as [|t log Ht Hwf IH]; intros l n Hn Hn0 Hcov; [constructor|].
  destruct (wellFormed_inv t Ht) as (p & q & Hp & Hq & Hq0).
  cbn [divisorsFrom sellsCovered] in *.
  apply andb_true_iff in Hcov. destruct Hcov as [Hc Hrest].
  destruct (Trade.type t) eqn:Ety.
  - constructor.
    + unfold totalShares. rewrite Hn, Hq. simpl. split; [exact I|].
      apply ltb_Fin. unfold inject_Z. lra.
    + apply (IH _ (n + q)); auto.
      * rewrite (applyTrade_BUY l t Ety). simpl. rewrite Hn, Hq. reflexivity.
      * lra.
  - rewrite Hn, Hq in Hc. apply leb_Fin in Hc.
    apply (IH _ (n + - q)); auto.
    + rewrite (applyTrade_SELL l t Ety). simpl. rewrite Hn, Hq. reflexivity.
    + lra.
Qed.

Lemma forallb_true_Forall {A : Type} (f : A -> bool) (l : list A) :
  forallb f l = true -> Forall (fun x => f x = true) l.
Proof.
  induction l as [|a l IH]; simpl; intros H; constructor;
    apply andb_true_iff in H; destruct H; auto.
Qed.

(** C9.  When the replay of a trade log ends with a position that is zero
    or negative, the profit that [calculateProfit] stores is the same for
    any two current prices and is the realized profit of the replay
    alone; the unrealized term (currentPrice - averageEntryPrice) *
    position is added exactly when the position is strictly positive. *)
Theorem C9_flat_profit_ignores_price :
  (forall log p1 p2 s,
     (position (replay log) <=? of_Z 0)%num = true ->
     profit (calculateProfit log p1 s) = profit (calculateProfit log p2 s)
     /\ profit (calculateProfit log p1 s) = currentProfit (replay log))
  /\ (forall log p s,
        (position (replay log) >? of_Z 0)%num = true ->
        profit (calculateProfit log p s)
        = (currentProfit (replay log)
           + (p - averageEntryPrice (replay log)) * position (replay log))%num).
Proof.
  split.
  - intros log p1 p2 s H. rewrite !calculateProfit_profit.
    unfold combinedProfit. rewrite (leb_zero_not_gtb _ H). split; reflexivity.
  - intros log p s H. rewrite calculateProfit_profit.
    unfold combinedProfit. rewrite H. reflexivity.
Qed.

(** C9 at [BUY 1@100, SELL 1@120], prices 120 and 500, and at
    [BUY 1@100], price 110. *)
Lemma C9_flat_profit_ignores_price_witness :
  (position (replay roundTripLog) <=? of_Z 0)%num = true
  /\ (profit (calculateProfit roundTripLog (of_Z 120) initialState)
      = profit (calculateProfit roundTripLog (of_Z 500) initialState)
      /\ profit (calculateProfit roundTripLog (of_Z 120) initialState)
         = currentProfit (replay roundTripLog))
  /\ profit (calculateProfit [buy1At 100 (of_Z 1)] (of_Z 110) initialState)
     = (currentProfit (replay [buy1At 100 (of_Z 1)])
        + (of_Z 110 - averageEntryPrice (replay [buy1At 100 (of_Z 1)]))
          * position (replay [buy1At 100 (of_Z 1)]))%num.
Proof.
  split; [reflexivity|]. split.
  - apply (proj1 C9_flat_profit_ignores_price). reflexivity.
  - apply (proj2 C9_flat_profit_ignores_price). reflexivity.
Defined.

(** C10.  If every SELL of a log of well-formed trades finds
    position >= quantity, the position is non-negative after every trade
    and the divisor position + quantity of every BUY is finite and
    strictly positive, so no weighted-average update divides by zero.
    Without that precondition the divisor can be zero: it is zero for a
    BUY of quantity q met at position -q, as in a log that sells q
    shares and then buys q. *)
Theorem C10_covered_sells_keep_divisor_positive :
  (forall log,
     Forall wellFormed log -> sellsCovered ledger0 log = true ->
     Forall (fun x => nonNegative x = true) (positionsFrom ledger0 log)
     /\ Forall (fun d => finite d /\ strictlyPositive d = true)
          (divisorsFrom ledger0 log))
  /\ (forall l t q,
        Trade.type t = T_BUY -> Trade.quantity t = Fin q ->
        position l = Fin (- q) ->
        (totalShares l t =~ of_Z 0)%num)
  /\ (forall p1 p2 t1 t2 q,
        0 < q ->
        sellsCovered ledger0
          [Trade.mk T_SELL p1 t1 (Fin q); Trade.mk T_BUY p2 t2 (Fin q)]
        = false
        /\ exists d,
             divisorsFrom ledger0
               [Trade.mk T_SELL p1 t1 (Fin q); Trade.mk T_BUY p2 t2 (Fin q)]
             = [d]
             /\ (d =~ of_Z 0)%num
             /\ ~ finite
                  (averageEntryPrice
                     (replay [Trade.mk T_SELL p1 t1 (Fin q);
                              Trade.mk T_BUY p2 t2 (Fin q)]))).
Proof.
  split; [|split].
  - intros log Hwf Hcov. split.
    + apply forallb_true_Forall.
      rewrite (positions_nonNegative_iff log Hwf ledger0 0); auto.
      lra.
    + apply (divisors_positive log Hwf ledger0 0); auto. lra.
  - intros l t q _ Hq Hn. unfold totalShares. rewrite Hn, Hq. simpl.
    unfold inject_Z. ring.
  - intros p1 p2 t1 t2 q Hq. split.
    + simpl. unfold geb. simpl.
      destruct (Qle_bool q (inject_Z 0)) eqn:E; auto.
      apply Qle_bool_iff in E. unfold inject_Z in E. lra.
    + eexists. split; [reflexivity|].
      assert (Hd : (totalShares
                      (applyTrade ledger0 (Trade.mk T_SELL p1 t1 (Fin q)))
                      (Trade.mk T_BUY p2 t2 (Fin q)) =~ of_Z 0)%num).
      { simpl. unfold inject_Z. ring. }
      split; [exact Hd|].
      apply div_zero_not_finite. exact Hd.
Qed.

(** C10 at [BUY 1@100, SELL 1@120], whose sale is covered, and at
    [SELL 1@100, BUY 1@90], whose sale is not. *)
Lemma C10_covered_sells_keep_divisor_positive_witness :
  (Forall (fun x => nonNegative x = true) (positionsFrom ledger0 roundTripLog)
   /\ Forall (fun d => finite d /\ strictlyPositive d = true)
        (divisorsFrom ledger0 roundTripLog))
  /\ (totalShares (replay oversoldLog) (buy1At 90 (of_Z 2)) =~ of_Z 0)%num
  /\ (sellsCovered ledger0 sellThenBuyLog = false
      /\ exists d,
           divisorsFrom ledger0 sellThenBuyLog = [d]
           /\ (d =~ of_Z 0)%num
           /\ ~ finite (averageEntryPrice (replay sellThenBuyLog))).
Proof.
  split; [|split].
  - apply (proj1 C10_covered_sells_keep_divisor_positive).
    + repeat constructor.
    + reflexivity.
  - apply (proj1 (proj2 C10_covered_sells_keep_divisor_positive)
             (replay oversoldLog) (buy1At 90 (of_Z 2)) (inject_Z 1));
      reflexivity.
  - apply (proj2 (proj2 C10_covered_sells_keep_divisor_positive)
             (of_Z 100) (of_Z 90) (of_Z 1) (of_Z 2) (inject_Z 1)).
    reflexivity.
Defined.

(** ** Absence of checks in [calculateProfit] *)

Lemma calculateProfit_returns (log : list Trade.t) (p : number) (s : State) :
  calculateProfit_completion log p s = Returns (calculateProfit log p s).
Proof. reflexivity. Qed.

(** The specification's C2 fails on [SELL 1@100] alone: the sale is not
    covered, the call returns normally, and the position ends at -1. *)
Lemma C2_oversell_counterexample :
  sellsCovered ledger0 oversoldLog = false
  /\ calculateProfit_completion oversoldLog (of_Z 100) initialState
     <> Throws InsufficientPositionError
  /\ (position (replay oversoldLog) <? of_Z 0)%num = true
  /\ (position (replay oversoldLog) =~ of_Z (-1))%num.
Proof.
  split; [reflexivity|]. split; [discriminate|].
  split; vm_compute; reflexivity.
Qed.

(** C2, as the code has it.  [calculateProfit] neither detects nor
    rejects a SELL that exceeds the position: every call returns
    normally, and a SELL subtracts its quantity from the position whether
    it is covered or not.  For well-formed trades the position stays
    non-negative throughout the replay exactly when every SELL is
    covered. *)
Theorem C2_sell_never_rejected :
  (forall log p s e, calculateProfit_completion log p s <> Throws e)
  /\ (forall log t,
        Trade.type t = T_SELL ->
        position (replay (log ++ [t]))
        = (position (replay log) - Trade.quantity t)%num)
  /\ (forall log,
        Forall wellFormed log ->
        forallb nonNegative (positionsFrom ledger0 log)
        = sellsCovered ledger0 log).
Proof.
  split; [|split].
  - intros log p s e. rewrite calculateProfit_returns. discriminate.
  - intros log t H. rewrite replay_snoc, (applyTrade_SELL _ t H). reflexivity.
  - intros log Hwf. apply (positions_nonNegative_iff log Hwf ledger0 0); auto.
    lra.
Qed.

(** C2 at [SELL 1@100]: the position after the sale is 0 - 1, and the
    replay goes negative because the sale is not covered. *)
Lemma C2_sell_never_rejected_witness :
  position (replay ([] ++ oversoldLog))
  = (position (replay []) - of_Z 1)%num
  /\ forallb nonNegative (positionsFrom ledger0 oversoldLog)
     = sellsCovered ledger0 oversoldLog.
Proof.
  split.
  - apply (proj1 (proj2 C2_sell_never_rejected) [] (sell1At 100 (of_Z 1))).
    reflexivity.
  - apply (proj2 (proj2 C2_sell_never_rejected)). repeat constructor.
Defined.

(** The specification's C3 fails at an initial investment of zero: with
    an empty log the call returns normally and stores NaN as the
    percentage. *)
Lemma C3_zero_investment_counterexample :
  (initialInvestment zeroInvestmentState <=? of_Z 0)%num = true
  /\ calculateProfit_completion [] (of_Z 100) zeroInvestmentState
     <> Throws InvalidConfiguration
  /\ profitPercent (calculateProfit [] (of_Z 100) zeroInvestmentState) = NaN.
Proof.
  split; [reflexivity|]. split; [discriminate|reflexivity].
Qed.

Lemma step_initialInvestment (s : State) (e : Event) :
  initialInvestment (step s e) = initialInvestment s.
Proof.
  destruct e; simpl; try reflexivity.
  - unfold toggleDataSource. destruct (stock_selected s); reflexivity.
  - unfold deliver, onMessage.
    destruct (Message.signal (payload d)) as [sig|].
    + destruct (newTrade (nowTrade d) (payload d) sig); reflexivity.
    + destruct (0 <? List.length (closedTrades d))%nat; reflexivity.
Qed.

Lemma run_initialInvestment (events : list Event) (s : State) :
  initialInvestment (run s events) = initialInvestment s.
Proof.
  revert s. induction events as [|e events IH]; intros s; [reflexivity|].
  change (run s (e :: events)) with (run (step s e) events).
  rewrite IH. apply step_initialInvestment.
Qed.

(** C3, as the code has it.  [calculateProfit] never signals a
    configuration error: whatever [initialInvestment] is, it returns
    normally after computing the percentage
    ((totalReturned + position*currentPrice - initialInvestment)
     / initialInvestment) * 100.  When [initialInvestment] is zero the
    stored percentage is NaN or an infinity.  No handler of the dashboard
    changes [initialInvestment], which is 10000 in every reachable
    state. *)
Theorem C3_percentage_unchecked :
  (forall log p s e, calculateProfit_completion log p s <> Throws e)
  /\ (forall log p s,
        profitPercent (calculateProfit log p s)
        = (((totalReturned (replay log) + position (replay log) * p
             - initialInvestment s)
            / initialInvestment s) * of_Z 100)%num)
  /\ (forall log p s,
        (initialInvestment s =~ of_Z 0)%num ->
        ~ finite (profitPercent (calculateProfit log p s)))
  /\ (forall s, reachable s -> initialInvestment s = of_Z 10000).
Proof.
  split; [|split; [|split]].
  - intros log p s e. rewrite calculateProfit_returns. discriminate.
  - intros log p s. reflexivity.
  - intros log p s H. rewrite calculateProfit_profitPercent.
    unfold profitPercentage.
    apply mul_not_finite_l, div_zero_not_finite. exact H.
  - intros s [events ->]. apply run_initialInvestment.
Qed.

(** C3 at an initial investment of zero and an empty log, and at the
    initial state of the dashboard. *)
Lemma C3_percentage_unchecked_witness :
  ~ finite (profitPercent (calculateProfit [] (of_Z 100) zeroInvestmentState))
  /\ initialInvestment initialState = of_Z 10000.
Proof.
  split.
  - apply (proj1 (proj2 (proj2 C3_percentage_unchecked))). reflexivity.
  - apply (proj2 (proj2 (proj2 C3_percentage_unchecked))).
    exists []. reflexivity.
Defined.

(** ** Trade creation in [onMessage] *)

(** In the specification's C4 the trade carries the price and the
    timestamp of the signal.  For a BUY signal priced 100 at time 5000
    that arrives with a quote of 101 and is handled at time 5007, the
    trade is priced 101 and stamped 5007. *)
Lemma C4_trade_fields_counterexample :
  newTrade 5007 staleMessage staleSignal
  = Some (Trade.mk T_BUY (of_Z 101) (of_Z 5007) (of_Z 1))
  /\ newTrade 5007 staleMessage staleSignal
     <> Some (Trade.mk T_BUY (Signal.price staleSignal)
                (Signal.timestamp staleSignal) (of_Z 1))
  /\ eqvb (of_Z 101) (Signal.price staleSignal) = false
  /\ eqvb (of_Z 5007) (Signal.timestamp staleSignal) = false.
Proof.
  split; [reflexivity|]. split; [discriminate|]. split; reflexivity.
Qed.

Lemma newTrade_not_HOLD (now : Z) (data : Message.t) (sig : Signal.t) :
  Signal.type sig <> HOLD ->
  exists ty,
    kindOf ty = Signal.type sig
    /\ newTrade now data sig
       = Some (Trade.mk ty (StockData.currentPrice (Message.stockData data))
                 (of_Z now) (of_Z 1)).
Proof.
  intros H. unfold newTrade. destruct (Signal.type sig).
  - exists T_BUY. split; reflexivity.
  - exists T_SELL. split; reflexivity.
  - congruence.
Qed.

(** The signal that the mock feed sends is priced at the quote of its
    own message. *)
Lemma intervalTick_signal_price (symbol : string) (f : MockFeed)
    (env : TickEnv) (sig : Signal.t) :
  Message.signal (snd (intervalTick symbol f env)) = Some sig ->
  Signal.price sig
  = StockData.currentPrice (Message.stockData (snd (intervalTick symbol f env))).
Proof.
  unfold intervalTick. simpl. unfold generateSignal.
  destruct (tooFrequent _ _); [discriminate|].
  destruct (lastSignal f) as [last|].
  - destruct (SignalType_eqb _ _); [discriminate|].
    intros H. injection H as <-. reflexivity.
  - intros H. injection H as <-. reflexivity.
Qed.

(** C4, as the code has it.  For a HOLD signal no trade is made.  For a
    BUY or SELL signal the trade has the signal's kind and quantity 1;
    its price is the quote [stockData.currentPrice] of the message and
    its timestamp the clock value read when the message is handled.  It
    is appended to the trade log.  The trade's price is the signal's
    price when the signal was priced at the quote of its message, as the
    signals of the mock feed are. *)
Theorem C4_trade_from_signal :
  (forall now data sig,
     Signal.type sig = HOLD -> newTrade now data sig = None)
  /\ (forall now data sig,
        Signal.type sig <> HOLD ->
        exists ty,
          kindOf ty = Signal.type sig
          /\ newTrade now data sig
             = Some (Trade.mk ty
                       (StockData.currentPrice (Message.stockData data))
                       (of_Z now) (of_Z 1)))
  /\ (forall closed nowH nowT data sig t s,
        Message.signal data = Some sig ->
        newTrade nowT data sig = Some t ->
        trades (onMessage closed nowH nowT data s) = trades s ++ [t])
  /\ (forall closed nowH nowT data sig s,
        Message.signal data = Some sig ->
        Signal.type sig = HOLD ->
        trades (onMessage closed nowH nowT data s) = trades s)
  /\ (forall symbol f env sig now t,
        Message.signal (snd (intervalTick symbol f env)) = Some sig ->
        newTrade now (snd (intervalTick symbol f env)) sig = Some t ->
        Trade.price t = Signal.price sig).
Proof.
  split; [|split; [|split; [|split]]].
  - intros now data sig H. unfold newTrade. rewrite H. reflexivity.
  - exact newTrade_not_HOLD.
  - intros closed nowH nowT data sig t s Hsig Ht.
    unfold onMessage. rewrite Hsig, Ht. reflexivity.
  - intros closed nowH nowT data sig s Hsig Hhold.
    unfold onMessage, newTrade. rewrite Hsig, Hhold. reflexivity.
  - intros symbol f env sig now t Hsig Ht.
    rewrite (intervalTick_signal_price symbol f env sig Hsig).
    unfold newTrade in Ht.
    destruct (Signal.type sig); try discriminate;
      injection Ht as <-; reflexivity.
Qed.

(** C4 at the message whose BUY signal is priced 100 and whose quote is
    101, handled at time 5007, at a HOLD signal, and at the first
    message of the mock feed. *)
Lemma C4_trade_from_signal_witness :
  newTrade 5007 staleMessage holdSignal = None
  /\ (exists ty,
        kindOf ty = BUY
        /\ newTrade 5007 staleMessage staleSignal
           = Some (Trade.mk ty (of_Z 101) (of_Z 5007) (of_Z 1)))
  /\ trades (onMessage [] 5007 5007 staleMessage initialState)
     = trades initialState
       ++ [Trade.mk T_BUY (of_Z 101) (of_Z 5007) (of_Z 1)]
  /\ trades (onMessage [] 5007 5007
               (Message.mk (Message.stockData staleMessage) (Some holdSignal))
               initialState)
     = trades initialState
  /\ Trade.price
       (Trade.mk T_BUY
          (StockData.currentPrice
             (Message.stockData
                (snd (intervalTick "AAPL" mockFeed0 (tickBuyAt 1000)))))
          (of_Z 1001) (of_Z 1))
     = Signal.price
         (Signal.mk BUY
            (StockData.currentPrice
               (Message.stockData
                  (snd (intervalTick "AAPL" mockFeed0 (tickBuyAt 1000)))))
            (of_Z 1000)).
Proof.
  split; [|split; [|split; [|split]]].
  - apply (proj1 C4_trade_from_signal). reflexivity.
  - apply (proj1 (proj2 C4_trade_from_signal) 5007%Z staleMessage staleSignal).
    discriminate.
  - apply (proj1 (proj2 (proj2 C4_trade_from_signal))
             [] 5007%Z 5007%Z staleMessage staleSignal); reflexivity.
  - apply (proj1 (proj2 (proj2 (proj2 C4_trade_from_signal)))
             [] 5007%Z 5007%Z _ holdSignal); reflexivity.
  - apply (proj2 (proj2 (proj2 (proj2 C4_trade_from_signal)))
             "AAPL"%string mockFeed0 (tickBuyAt 1000) _ 1001%Z);
      reflexivity.
Defined.

(** ** Timeframe change *)

Lemma deliver_after_timeframe (tf : string) (s : State) (d : Delivery) :
  trades (deliver (handleTimeframeSelect tf s) d) = trades (deliver s d)
  /\ profit (deliver (handleTimeframeSelect tf s) d) = profit (deliver s d)
  /\ profitPercent (deliver (handleTimeframeSelect tf s) d)
     = profitPercent (deliver s d).
Proof.
  unfold deliver, onMessage.
  destruct (Message.signal (payload d)) as [sig|].
  - destruct (newTrade (nowTrade d) (payload d) sig); repeat split.
  - destruct (0 <? List.length (closedTrades d))%nat; repeat split.
Qed.

(** C5.  [handleTimeframeSelect] empties the price history and the
    signal history and sets the timeframe; the trade log, the stored
    profit and percentage and the initial investment are untouched.  A
    recomputation after the change gives what it gave before it, and so
    does the handling of the next message.  A log of two trades is still
    that log after the change. *)
Theorem C5_timeframe_change_keeps_trades :
  (forall tf s,
     priceHistory (handleTimeframeSelect tf s) = []
     /\ signalHistory (handleTimeframeSelect tf s) = []
     /\ timeframe (handleTimeframeSelect tf s) = tf
     /\ trades (handleTimeframeSelect tf s) = trades s
     /\ profit (handleTimeframeSelect tf s) = profit s
     /\ profitPercent (handleTimeframeSelect tf s) = profitPercent s
     /\ initialInvestment (handleTimeframeSelect tf s) = initialInvestment s)
  /\ (forall tf s p,
        profit (calculateProfit (trades (handleTimeframeSelect tf s)) p
                  (handleTimeframeSelect tf s))
        = profit (calculateProfit (trades s) p s)
        /\ profitPercent
             (calculateProfit (trades (handleTimeframeSelect tf s)) p
                (handleTimeframeSelect tf s))
           = profitPercent (calculateProfit (trades s) p s))
  /\ (forall tf s d,
        trades (deliver (handleTimeframeSelect tf s) d) = trades (deliver s d)
        /\ profit (deliver (handleTimeframeSelect tf s) d)
           = profit (deliver s d)
        /\ profitPercent (deliver (handleTimeframeSelect tf s) d)
           = profitPercent (deliver s d))
  /\ (forall tf s t1 t2,
        trades (handleTimeframeSelect tf (setTrades (fun _ => [t1; t2]) s))
        = [t1; t2]).
Proof.
  split; [|split; [|split]].
  - intros tf s. repeat split.
  - intros tf s p. split; reflexivity.
  - exact deliver_after_timeframe.
  - intros tf s t1 t2. reflexivity.
Qed.

(** ** The bounded price history *)

Lemma slice_last_length {A : Type} (n : nat) (l : list A) :
  List.length (slice_last n l) = Nat.min n (List.length l).
Proof. unfold slice_last. rewrite length_skipn. lia. Qed.

Lemma slice_last_suffix {A : Type} (n : nat) (l : list A) :
  l = firstn (List.length l - n) l ++ slice_last n l.
Proof. unfold slice_last. symmetry. apply firstn_skipn. Qed.

Lemma slice_last_short {A : Type} (n : nat) (l : list A) :
  (List.length l <= n)%nat -> slice_last n l = l.
Proof.
  intros H. unfold slice_last.
  replace (List.length l - n)%nat with 0%nat by lia. reflexivity.
Qed.

(** Trimming before appending changes nothing once the result is
    trimmed again. *)
Lemma slice_last_app {A : Type} (n : nat) (l r : list A) :
  slice_last n (slice_last n l ++ r) = slice_last n (l ++ r).
Proof.
  destruct (Nat.le_gt_cases (List.length l) n) as [H|H].
  - rewrite (slice_last_short n l H). reflexivity.
  - unfold slice_last at 1 3.
    rewrite !length_app, slice_last_length.
    replace (Nat.min n (List.length l) + List.length r - n)%nat
      with (List.length r) by lia.
    replace (List.length l + List.length r - n)%nat
      with (List.length r + (List.length l - n))%nat by lia.
    rewrite <- skipn_skipn. f_equal.
    rewrite skipn_app.
    replace (List.length l - n - List.length l)%nat with 0%nat by lia.
    reflexivity.
Qed.

Lemma deliver_priceHistory (s : State) (d : Delivery) :
  priceHistory (deliver s d)
  = slice_last 100 (priceHistory s ++ [pointOf d]).
Proof.
  unfold deliver, onMessage.
  destruct (Message.signal (payload d)) as [sig|].
  - destruct (newTrade (nowTrade d) (payload d) sig); reflexivity.
  - destruct (0 <? List.length (closedTrades d))%nat; reflexivity.
Qed.

Lemma deliverAll_priceHistory (ds : list Delivery) :
  forall (s : State) (d : Delivery),
    priceHistory (deliverAll s (d :: ds))
    = slice_last 100 (priceHistory s ++ map pointOf (d :: ds)).
Proof.
  induction ds as [|d' ds IH]; intros s d.
  - apply deliver_priceHistory.
  - change (deliverAll s (d :: d' :: ds))
      with (deliverAll (deliver s d) (d' :: ds)).
    rewrite IH, deliver_priceHistory, slice_last_app.
    rewrite <- app_assoc. reflexivity.
Qed.

(** C8.  Each message appends its price point to the history and keeps
    the last 100 entries.  After any non-empty sequence of messages the
    history is the last 100 entries of the earlier history followed by
    the delivered points, in order of delivery: it has at most 100
    entries and is what is left of that sequence when its oldest entries
    are dropped.  After 101 messages on an empty history it holds the
    points of the last 100. *)
Theorem C8_price_history_bounded :
  (forall s d,
     priceHistory (deliver s d)
     = slice_last 100 (priceHistory s ++ [pointOf d]))
  /\ (forall s d ds,
        let delivered := priceHistory s ++ map pointOf (d :: ds) in
        let history := priceHistory (deliverAll s (d :: ds)) in
        history = slice_last 100 delivered
        /\ (List.length history <= 100)%nat
        /\ List.length history = Nat.min 100 (List.length delivered)
        /\ delivered
           = firstn (List.length delivered - 100) delivered ++ history)
  /\ (forall s d ds,
        priceHistory s = [] -> List.length ds = 100%nat ->
        priceHistory (deliverAll s (d :: ds)) = map pointOf ds).
Proof.
  split; [exact deliver_priceHistory|]. split.
  - intros s d ds delivered history. subst delivered history.
    rewrite deliverAll_priceHistory.
    split; [reflexivity|]. split; [|split].
    + rewrite slice_last_length. lia.
    + apply slice_last_length.
    + apply slice_last_suffix.
  - intros s d ds Hs Hlen. rewrite deliverAll_priceHistory, Hs.
    unfold slice_last. simpl List.length. rewrite length_map, Hlen.
    reflexivity.
Qed.

(** C8 at 101 deliveries to the initial state. *)
Lemma C8_price_history_bounded_witness :
  priceHistory (deliverAll initialState (tickAt 0 :: map tickAt (seq 1 100)))
  = map pointOf (map tickAt (seq 1 100)).
Proof.
  apply (proj2 (proj2 C8_price_history_bounded)); reflexivity.
Defined.

(** ** The signal generator *)

Lemma SignalType_eqb_eq (a b : SignalType) :
  SignalType_eqb a b = true <-> a = b.
Proof. destruct a, b; simpl; split; congruence. Qed.

Lemma SignalType_eqb_neq (a b : SignalType) :
  SignalType_eqb a b = false <-> a <> b.
Proof. destruct a, b; simpl; split; congruence. Qed.

Example signalType_thresholds :
  signalType 0 = BUY /\ signalType (149 # 1000) = BUY
  /\ signalType (15 # 100) = SELL /\ signalType (299 # 1000) = SELL
  /\ signalType (3 # 10) = HOLD /\ signalType (999 # 1000) = HOLD.
Proof. repeat split. Qed.

(** A repeated classification is suppressed. *)
Lemma generateSignal_repeat (env : SignalEnv) (sd : StockData.t)
    (last : Signal.t) (lastTime : option number) :
  signalType (random env) = Signal.type last ->
  generateSignal env sd (Some last) lastTime = None.
Proof.
  intros H. unfold generateSignal.
  destruct (tooFrequent (nowCheck env) lastTime); [reflexivity|].
  apply SignalType_eqb_eq in H. rewrite H. reflexivity.
Qed.

(** What an emitted signal is. *)
Lemma generateSignal_emitted (env : SignalEnv) (sd : StockData.t)
    (last : option Signal.t) (lastTime : option number) (sig : Signal.t) :
  generateSignal env sd last lastTime = Some sig ->
  sig = Signal.mk (signalType (random env)) (StockData.currentPrice sd)
          (of_Z (nowStamp env))
  /\ tooFrequent (nowCheck env) lastTime = false
  /\ (forall l, last = Some l -> Signal.type sig <> Signal.type l).
Proof.
  unfold generateSignal.
  destruct (tooFrequent (nowCheck env) lastTime); [discriminate|].
  destruct last as [l|].
  - destruct (SignalType_eqb _ _) eqn:E; [discriminate|].
    intros H. injection H as <-. repeat split.
    intros l' Hl. injection Hl as <-. simpl.
    apply SignalType_eqb_neq. exact E.
  - intros H. injection H as <-. repeat split. discriminate.
Qed.

(** When nothing suppresses it, the signal is emitted. *)
Lemma generateSignal_change (env : SignalEnv) (sd : StockData.t)
    (last : option Signal.t) (lastTime : option number) :
  tooFrequent (nowCheck env) lastTime = false ->
  (forall l, last = Some l -> signalType (random env) <> Signal.type l) ->
  generateSignal env sd last lastTime
  = Some (Signal.mk (signalType (random env)) (StockData.currentPrice sd)
            (of_Z (nowStamp env))).
Proof.
  intros Hrate Hne. unfold generateSignal. rewrite Hrate.
  destruct last as [l|]; [|reflexivity].
  specialize (Hne l eq_refl). apply SignalType_eqb_neq in Hne.
  rewrite Hne. reflexivity.
Qed.

(** The rate limit, for a last-signal time that is truthy. *)
Lemma generateSignal_rate_limited (env : SignalEnv) (sd : StockData.t)
    (last : option Signal.t) (t : number) :
  truthy t = true ->
  (of_Z (nowCheck env) - t <? of_Z 5000)%num = true ->
  generateSignal env sd last (Some t) = None.
Proof.
  intros Ht Hlt. unfold generateSignal, tooFrequent.
  rewrite Ht, Hlt. reflexivity.
Qed.

Lemma alternating_afterLast (last : option Signal.t) (sig : Signal.t)
    (sigs : list Signal.t) :
  (forall l, last = Some l -> Signal.type sig <> Signal.type l) ->
  alternating (sig :: sigs) ->
  alternating (afterLast last (sig :: sigs)).
Proof.
  intros Hne Halt. destruct last as [l|]; [|exact Halt].
  split; [|exact Halt].
  intros E. apply (Hne l eq_refl). symmetry. exact E.
Qed.

Lemma alternating_last_only (last : option Signal.t) :
  alternating (afterLast last []).
Proof. destruct last; simpl; auto. Qed.

Lemma generateAll_alternating (calls : list Call) :
  forall last, alternating (afterLast last (somes (generateAll last calls))).
Proof.
  induction calls as [|c calls IH]; intros last.
  - apply alternating_last_only.
  - cbn [generateAll].
    destruct (generateSignal (callEnv c) (callData c) last (callLastTime c))
      as [sig|] eqn:E.
    + cbn [somes].
      destruct (generateSignal_emitted _ _ _ _ _ E) as (_ & _ & Hne).
      apply alternating_afterLast; [exact Hne|].
      exact (IH (Some sig)).
    + cbn [somes]. exact (IH last).
Qed.

Lemma runFeed_alternating (symbol : string) (envs : list TickEnv) :
  forall f,
    alternating
      (afterLast (lastSignal f) (emittedSignals (runFeed symbol f envs))).
Proof.
  induction envs as [|env envs IH]; intros f.
  - apply alternating_last_only.
  - cbn [runFeed]. unfold intervalTick.
    destruct (generateSignal (signalEnv env)
                (generateMockStockData (priceRandom env) symbol (lastPrice f))
                (lastSignal f) (lastSignalTime f)) as [sig|] eqn:E.
    + cbn [emittedSignals Message.signal].
      destruct (generateSignal_emitted _ _ _ _ _ E) as (_ & _ & Hne).
      apply alternating_afterLast; [exact Hne|].
      match goal with
      | |- context [runFeed symbol ?f' envs] => exact (IH f')
      end.
    + cbn [emittedSignals Message.signal].
      match goal with
      | |- context [runFeed symbol ?f' envs] => exact (IH f')
      end.
Qed.

(** After a call that got past the rate limit, the caller's
    [lastSignal] has the type the call classified. *)
Lemma keepLast_type (env : SignalEnv) (sd : StockData.t)
    (last : option Signal.t) (lastTime : option number) :
  tooFrequent (nowCheck env) lastTime = false ->
  option_map Signal.type
    (keepLast last (generateSignal env sd last lastTime))
  = Some (signalType (random env)).
Proof.
  intros Hrate. unfold generateSignal. rewrite Hrate.
  destruct last as [l|]; [|reflexivity].
  destruct (SignalType_eqb _ _) eqn:E; [|reflexivity].
  apply SignalType_eqb_eq in E. simpl. congruence.
Qed.

Lemma runFeed_two (symbol : string) (lp : option number) (e1 e2 : TickEnv) :
  let sd1 := generateMockStockData (priceRandom e1) symbol lp in
  let s1 := Signal.mk (signalType (random (signalEnv e1)))
              (StockData.currentPrice sd1) (of_Z (nowStamp (signalEnv e1))) in
  let sd2 := generateMockStockData (priceRandom e2) symbol
               (Some (StockData.currentPrice sd1)) in
  map Message.signal (runFeed symbol (mkMockFeed lp None None) [e1; e2])
  = [Some s1;
     generateSignal (signalEnv e2) sd2 (Some s1)
       (Some (of_Z (nowStamp (signalEnv e1))))].
Proof. reflexivity. Qed.

(** C6.  A call of [generateSignal] whose classification equals the type
    of [lastSignal] returns no signal, HOLD included.  When the caller
    replaces [lastSignal] by each emitted signal, as the interval
    callback of the mock feed does, its [lastSignal] has the classified
    type after every call that got past the rate limit, so a signal is
    emitted only when the classification changes; no two consecutive
    emitted signals have the same type, and none repeats the type of the
    signal the caller started with.  For two runs of the callback of a
    feed that has emitted nothing yet, classified BUY, BUY, the second
    emits nothing; classified BUY, SELL, both emit when the second is not
    too frequent. *)
Theorem C6_no_repeated_signal_type :
  (forall env sd last lastTime,
     signalType (random env) = Signal.type last ->
     generateSignal env sd (Some last) lastTime = None)
  /\ (forall env sd last lastTime,
        tooFrequent (nowCheck env) lastTime = false ->
        option_map Signal.type
          (keepLast last (generateSignal env sd last lastTime))
        = Some (signalType (random env)))
  /\ (forall last calls,
        alternating (afterLast last (somes (generateAll last calls))))
  /\ (forall symbol f envs,
        alternating
          (afterLast (lastSignal f) (emittedSignals (runFeed symbol f envs))))
  /\ (forall symbol lp e1 e2,
        signalType (random (signalEnv e1)) = BUY ->
        signalType (random (signalEnv e2)) = BUY ->
        exists s1,
          Signal.type s1 = BUY
          /\ map Message.signal
               (runFeed symbol (mkMockFeed lp None None) [e1; e2])
             = [Some s1; None])
  /\ (forall symbol lp e1 e2,
        signalType (random (signalEnv e1)) = BUY ->
        signalType (random (signalEnv e2)) = SELL ->
        tooFrequent (nowCheck (signalEnv e2))
          (Some (of_Z (nowStamp (signalEnv e1)))) = false ->
        exists s1 s2,
          Signal.type s1 = BUY /\ Signal.type s2 = SELL
          /\ map Message.signal
               (runFeed symbol (mkMockFeed lp None None) [e1; e2])
             = [Some s1; Some s2]).
Proof.
  split; [exact generateSignal_repeat|].
  split; [exact keepLast_type|].
  split; [intros last calls; apply generateAll_alternating|].
  split; [intros symbol f envs; apply runFeed_alternating|].
  split.
  - intros symbol lp e1 e2 H1 H2. eexists. split; [|rewrite runFeed_two].
    2:{ cbv zeta. rewrite generateSignal_repeat; [reflexivity|].
        simpl. congruence. }
    simpl. exact H1.
  - intros symbol lp e1 e2 H1 H2 Hrate. eexists. eexists.
    split; [|split; [|rewrite runFeed_two]].
    3:{ cbv zeta. rewrite generateSignal_change; [reflexivity|exact Hrate|].
        intros l Hl. injection Hl as <-. simpl. congruence. }
    + simpl. exact H1.
    + simpl. exact H2.
Qed.

(** C6 at a HOLD classified after a HOLD, and at draws 0.1 (BUY) and
    0.2 (SELL) 6 seconds apart, after the first quote of the feed. *)
Lemma C6_no_repeated_signal_type_witness :
  generateSignal (mkSignalEnv 9000 (1 # 2) 9000)
    (Message.stockData staleMessage) (Some holdSignal) None = None
  /\ option_map Signal.type
       (keepLast (Some holdSignal)
          (generateSignal (mkSignalEnv 9000 (1 # 10) 9000)
             (Message.stockData staleMessage) (Some holdSignal) None))
     = Some BUY
  /\ (exists s1,
        Signal.type s1 = BUY
        /\ map Message.signal
             (runFeed "AAPL" (fst (feedStart (1 # 2) "AAPL"))
                [tickBuyAt 1000; tickBuyAt 7000])
           = [Some s1; None])
  /\ (exists s1 s2,
        Signal.type s1 = BUY /\ Signal.type s2 = SELL
        /\ map Message.signal
             (runFeed "AAPL" (fst (feedStart (1 # 2) "AAPL"))
                [tickBuyAt 1000; tickSellAt 7000])
           = [Some s1; Some s2]).
Proof.
  split; [|split; [|split]].
  - apply (proj1 C6_no_repeated_signal_type). reflexivity.
  - apply (proj1 (proj2 C6_no_repeated_signal_type)). reflexivity.
  - apply (proj1 (proj2 (proj2 (proj2 (proj2 C6_no_repeated_signal_type)))));
      reflexivity.
  - apply (proj2 (proj2 (proj2 (proj2 (proj2 C6_no_repeated_signal_type)))));
      reflexivity.
Defined.

Lemma of_Z_sub (a b : Z) :
  (of_Z a - of_Z b)%num = Fin (inject_Z a + - inject_Z b).
Proof. reflexivity. Qed.

Lemma inject_Z_sub (a b : Z) :
  inject_Z a + - inject_Z b == inject_Z (a - b).
Proof.
  unfold Z.sub. rewrite inject_Z_plus, inject_Z_opp. reflexivity.
Qed.

Lemma of_Z_diff_below (a b c : Z) :
  (a - b < c)%Z -> (of_Z a - of_Z b <? of_Z c)%num = true.
Proof.
  intros H. rewrite of_Z_sub. unfold of_Z. apply ltb_Fin.
  rewrite inject_Z_sub. rewrite <- Zlt_Qlt. exact H.
Qed.

Lemma of_Z_diff_not_below (a b c : Z) :
  (of_Z a - of_Z b <? of_Z c)%num = false -> (c <= a - b)%Z.
Proof.
  intros H. destruct (Z_le_gt_dec c (a - b)) as [Hle|Hgt]; [exact Hle|].
  rewrite of_Z_diff_below in H by lia. discriminate.
Qed.

Lemma of_Z_diff_at_least (a b c : Z) :
  (c <= a - b)%Z -> (of_Z c <=? of_Z a - of_Z b)%num = true.
Proof.
  intros H. rewrite of_Z_sub. unfold of_Z. apply leb_Fin.
  rewrite inject_Z_sub. rewrite <- Zle_Qle. exact H.
Qed.

(** A clock value other than zero is truthy. *)
Lemma truthy_of_Z (z : Z) : z <> 0%Z -> truthy (of_Z z) = true.
Proof.
  intros Hz. unfold truthy, of_Z.
  destruct (Qeq_bool (inject_Z z) 0) eqn:E; [|reflexivity].
  apply Qeq_bool_iff in E. exfalso. apply Hz.
  apply (inject_Z_injective z 0). exact E.
Qed.

(** C7.  [lastSignalTime] is set when it holds the clock value stored
    with the last emitted signal: a time value, which the test
    [lastSignalTime && ...] takes for present unless it is 0.  For such a
    value z other than 0 and a clock that reads less than z + 5000,
    [generateSignal] returns no signal.  For two runs of the interval
    callback of a feed that has emitted nothing, the second 3 seconds
    after the stamp of the first, the first emits a signal and the second
    returns none. *)
Theorem C7_rate_limit_within_five_seconds :
  (forall env sd last z,
     timeValue z -> timeValue (nowCheck env) ->
     z <> 0%Z -> (nowCheck env - z < 5000)%Z ->
     generateSignal env sd last (Some (of_Z z)) = None)
  /\ (forall symbol lp e1 e2,
        timeValue (nowStamp (signalEnv e1)) ->
        timeValue (nowCheck (signalEnv e2)) ->
        nowStamp (signalEnv e1) <> 0%Z ->
        nowCheck (signalEnv e2) = (nowStamp (signalEnv e1) + 3000)%Z ->
        exists s1,
          Signal.timestamp s1 = of_Z (nowStamp (signalEnv e1))
          /\ map Message.signal
               (runFeed symbol (mkMockFeed lp None None) [e1; e2])
             = [Some s1; None]).
Proof.
  split.
  - intros env sd last z _ _ Hz Hlt.
    apply generateSignal_rate_limited.
    + apply truthy_of_Z. exact Hz.
    + apply of_Z_diff_below. exact Hlt.
  - intros symbol lp e1 e2 _ _ Hz Hnow.
    eexists. split; [|rewrite runFeed_two].
    2:{ cbv zeta. rewrite generateSignal_rate_limited; [reflexivity| |].
        - apply truthy_of_Z. exact Hz.
        - apply of_Z_diff_below. rewrite Hnow. lia. }
    reflexivity.
Qed.

(** C7 at a last signal stamped 1000 and a clock reading 4000, and at
    two runs of the callback at 1000 and 4000. *)
Lemma C7_rate_limit_within_five_seconds_witness :
  generateSignal (mkSignalEnv 4000 (2 # 10) 4000)
    (Message.stockData staleMessage) (Some staleSignal) (Some (of_Z 1000))
  = None
  /\ (exists s1,
        Signal.timestamp s1 = of_Z 1000
        /\ map Message.signal
             (runFeed "AAPL" (mkMockFeed None None None)
                [tickBuyAt 1000; tickSellAt 4000])
           = [Some s1; None]).
Proof.
  split.
  - apply (proj1 C7_rate_limit_within_five_seconds
             (mkSignalEnv 4000 (2 # 10) 4000) _ _ 1000%Z).
    + unfold timeValue. lia.
    + unfold timeValue. simpl. lia.
    + discriminate.
    + reflexivity.
  - apply (proj2 C7_rate_limit_within_five_seconds
             "AAPL"%string None (tickBuyAt 1000) (tickSellAt 4000)).
    + unfold timeValue. simpl. lia.
    + unfold timeValue. simpl. lia.
    + discriminate.
    + reflexivity.
Defined.

(** The edge of the test [lastSignalTime && ...]: a last-signal time of
    zero counts as absent.  For a clock that reads 0 at a first tick and
    3000 at a second, both ticks emit. *)
Remark rate_limit_test_at_clock_zero :
  map (option_map Signal.type)
    (map Message.signal
       (runFeed "AAPL" mockFeed0 [tickAtEpoch; tickThreeSecondsLater]))
  = [Some BUY; Some SELL]
  /\ tooFrequent 3000 (Some (of_Z 0)) = false.
Proof. repeat split. Qed.

(* ================================================================== *)
(** * Further properties of the dashboard *)

(** ** The trade log and the signal history under deliveries *)

Lemma deliver_trades (s : State) (d : Delivery) :
  trades (deliver s d) = trades s ++ tradeOf d.
Proof.
  unfold deliver, onMessage, tradeOf.
  destruct (Message.signal (payload d)) as [sig|].
  - destruct (newTrade (nowTrade d) (payload d) sig); simpl;
      [reflexivity | symmetry; apply app_nil_r].
  - destruct (0 <? List.length (closedTrades d))%nat; simpl;
      symmetry; apply app_nil_r.
Qed.

Lemma deliverAll_trades (ds : list Delivery) (s : State) :
  trades (deliverAll s ds) = trades s ++ flat_map tradeOf ds.
Proof.
  revert s. induction ds as [|d ds IH]; intros s.
  - simpl. symmetry. apply app_nil_r.
  - change (deliverAll s (d :: ds)) with (deliverAll (deliver s d) ds).
    rewrite IH, deliver_trades, <- app_assoc. reflexivity.
Qed.

(** X1.  Handling messages only appends to the trade log: after any
    sequence of deliveries the log is the earlier log followed by the
    trades of the BUY and SELL signals delivered, in order of delivery;
    its length grows by the number of those signals. *)
Theorem X1_trade_log_append_only (ds : list Delivery) (s : State) :
  trades (deliverAll s ds) = trades s ++ flat_map tradeOf ds
  /\ List.length (trades (deliverAll s ds))
     = (List.length (trades s)
        + List.length
            (filter (fun sig => negb (SignalType_eqb (Signal.type sig) HOLD))
               (flat_map signalOf ds)))%nat.
Proof.
  revert s. induction ds as [|d ds IH]; intros s.
  - simpl. rewrite app_nil_r. split; [reflexivity|lia].
  - change (deliverAll s (d :: ds)) with (deliverAll (deliver s d) ds).
    destruct (IH (deliver s d)) as [IHt IHn]. split.
    + rewrite IHt, deliver_trades, <- app_assoc. reflexivity.
    + rewrite IHn, deliver_trades, length_app. simpl flat_map.
      rewrite filter_app, length_app.
      assert (E : List.length (tradeOf d)
                  = List.length
                      (filter
                         (fun sig =>
                            negb (SignalType_eqb (Signal.type sig) HOLD))
                         (signalOf d))).
      { unfold tradeOf, signalOf, newTrade.
        destruct (Message.signal (payload d)) as [sig|]; [|reflexivity].
        simpl. destruct (Signal.type sig); reflexivity. }
      lia.
Qed.

Lemma deliver_signalHistory (s : State) (d : Delivery) :
  signalHistory (deliver s d) = signalHistory s ++ signalOf d.
Proof.
  unfold deliver, onMessage, signalOf.
  destruct (Message.signal (payload d)) as [sig|].
  - destruct (newTrade (nowTrade d) (payload d) sig); reflexivity.
  - destruct (0 <? List.length (closedTrades d))%nat; simpl;
      symmetry; apply app_nil_r.
Qed.

Lemma deliver_signal (s : State) (d : Delivery) :
  signal (deliver s d) = last (map Some (signalOf d)) (signal s).
Proof.
  unfold deliver, onMessage, signalOf.
  destruct (Message.signal (payload d)) as [sig|].
  - destruct (newTrade (nowTrade d) (payload d) sig); reflexivity.
  - destruct (0 <? List.length (closedTrades d))%nat; reflexivity.
Qed.

Lemma last_append {A : Type} (l1 l2 : list A) (a : A) :
  last (l1 ++ l2) a = last l2 (last l1 a).
Proof.
  revert a. induction l1 as [|x l1 IH]; intros a; [reflexivity|].
  destruct l1 as [|y l1].
  - simpl. destruct l2; [reflexivity|]. clear IH.
    revert a x. induction l2 as [|z l2 IH2]; intros a x'; [reflexivity|].
    simpl in *. destruct l2; [reflexivity|]. apply (IH2 a x').
  - change (last ((x :: y :: l1) ++ l2) a) with (last ((y :: l1) ++ l2) a).
    rewrite IH. reflexivity.
Qed.

(** X2.  The signal history keeps every delivered signal, HOLD
    included, in order and without bound, and the latest signal shown is
    the last one delivered (the earlier one when none was delivered). *)
Theorem X2_signal_history_keeps_all (ds : list Delivery) (s : State) :
  signalHistory (deliverAll s ds) = signalHistory s ++ flat_map signalOf ds
  /\ signal (deliverAll s ds)
     = last (map Some (flat_map signalOf ds)) (signal s).
Proof.
  revert s. induction ds as [|d ds IH]; intros s.
  - simpl. rewrite app_nil_r. split; reflexivity.
  - change (deliverAll s (d :: ds)) with (deliverAll (deliver s d) ds).
    destruct (IH (deliver s d)) as [IHh IHs]. split.
    + rewrite IHh, deliver_signalHistory, <- app_assoc. reflexivity.
    + rewrite IHs, deliver_signal. simpl flat_map. rewrite map_app.
      symmetry. apply last_append.
Qed.

(** X3.  After a message without a signal or with a BUY or SELL signal,
    if the trade log that the callback closes over, followed by the
    trade the message makes, is not empty, the stored profit and
    percentage are those of the replay of that list at the quote of the
    message.  That list is the dashboard's trade log after the message
    when the callback closes over the log as it is; a callback that
    closes over an older log stores the profit of the older log.  A
    message with a HOLD signal leaves the stored profit and percentage as
    they were, whatever its quote. *)
Theorem X3_profit_follows_closed_log (s : State) (d : Delivery) :
  (forall sig,
     Message.signal (payload d) = Some sig -> Signal.type sig = HOLD ->
     profit (deliver s d) = profit s
     /\ profitPercent (deliver s d) = profitPercent s)
  /\ ((forall sig,
         Message.signal (payload d) = Some sig -> Signal.type sig <> HOLD) ->
      closedTrades d ++ tradeOf d <> [] ->
      profit (deliver s d)
      = combinedProfit (replay (closedTrades d ++ tradeOf d)) (quoteOf d)
      /\ profitPercent (deliver s d)
         = profitPercentage (initialInvestment s)
             (replay (closedTrades d ++ tradeOf d)) (quoteOf d))
  /\ (closedTrades d = trades s ->
      trades (deliver s d) = closedTrades d ++ tradeOf d).
Proof.
  split; [|split].
  - intros sig Hsig Hhold. unfold deliver, onMessage, newTrade.
    rewrite Hsig, Hhold. split; reflexivity.
  - intros Hne Hlog.
    unfold deliver, onMessage, tradeOf, quoteOf in *.
    destruct (Message.signal (payload d)) as [sig|].
    + specialize (Hne sig eq_refl).
      destruct (newTrade_not_HOLD (nowTrade d) (payload d) sig Hne)
        as (ty & _ & Ht).
      rewrite Ht. split; reflexivity.
    + rewrite app_nil_r in *.
      destruct (closedTrades d) as [|t log]; [congruence|].
      split; reflexivity.
  - intros H. rewrite H. apply deliver_trades.
Qed.

(** X3 at the BUY message priced 101 delivered to the initial state by a
    callback that closes over the empty log, and at a HOLD message. *)
Lemma X3_profit_follows_closed_log_witness :
  (profit (deliver initialState staleDelivery)
   = combinedProfit
       (replay (closedTrades staleDelivery ++ tradeOf staleDelivery))
       (of_Z 101)
   /\ profitPercent (deliver initialState staleDelivery)
      = profitPercentage (of_Z 10000)
          (replay (closedTrades staleDelivery ++ tradeOf staleDelivery))
          (of_Z 101))
  /\ (profit (deliver initialState holdDelivery) = profit initialState
      /\ profitPercent (deliver initialState holdDelivery)
         = profitPercent initialState)
  /\ trades (deliver initialState staleDelivery)
     = closedTrades staleDelivery ++ tradeOf staleDelivery.
Proof.
  split; [|split].
  - apply (proj1 (proj2 (X3_profit_follows_closed_log initialState
                           staleDelivery))).
    + intros sig H. injection H as <-. discriminate.
    + discriminate.
  - apply (proj1 (X3_profit_follows_closed_log initialState holdDelivery)
             holdSignal); reflexivity.
  - apply (proj2 (proj2 (X3_profit_follows_closed_log initialState
                           staleDelivery))).
    reflexivity.
Defined.

(** ** Invariants of the reachable states *)

Lemma tradeOf_unit (d : Delivery) : Forall unitTrade (tradeOf d).
Proof.
  unfold tradeOf, newTrade.
  destruct (Message.signal (payload d)) as [sig|]; [|constructor].
  destruct (Signal.type sig); repeat constructor;
    exists (nowTrade d); reflexivity.
Qed.

Lemma step_unit_trades (s : State) (e : Event) :
  Forall unitTrade (trades s) -> Forall unitTrade (trades (step s e)).
Proof.
  intros H. destruct e; simpl; auto.
  - unfold toggleDataSource. destruct (stock_selected s); exact H.
  - rewrite deliver_trades. apply Forall_app. split; [exact H|].
    apply tradeOf_unit.
Qed.

Lemma step_history_bounded (s : State) (e : Event) :
  (List.length (priceHistory s) <= 100)%nat ->
  (List.length (priceHistory (step s e)) <= 100)%nat.
Proof.
  intros H. destruct e; simpl; auto; try lia.
  - unfold toggleDataSource. destruct (stock_selected s); simpl; lia.
  - rewrite deliver_priceHistory, slice_last_length. lia.
Qed.

Lemma run_snoc (s : State) (events : list Event) (e : Event) :
  run s (events ++ [e]) = step (run s events) e.
Proof. unfold run. rewrite fold_left_app. reflexivity. Qed.

Lemma inject_Z_succ (k : nat) :
  inject_Z (Z.of_nat (S k)) == inject_Z (Z.of_nat k) + 1.
Proof.
  rewrite Nat2Z.inj_succ. unfold Z.succ. rewrite inject_Z_plus. reflexivity.
Qed.

Lemma replayFrom_unit_position (log : list Trade.t) :
  Forall (fun t => Trade.quantity t = of_Z 1) log ->
  forall (l : Ledger) (n : Q),
    position l = Fin n ->
    exists n',
      position (replayFrom l log) = Fin n'
      /\ n' == n + inject_Z (Z.of_nat (countBuys log))
               - inject_Z (Z.of_nat (countSells log)).
Proof.
  induction 1 as [|t log Ht _ IH]; intros l n Hn.
  - exists n. split; [exact Hn|]. unfold countBuys, countSells. simpl.
    unfold inject_Z. ring.
  - change (replayFrom l (t :: log)) with (replayFrom (applyTrade l t) log).
    unfold countBuys, countSells, isSellb in *. simpl filter.
    destruct (Trade.type t) eqn:Ety.
    + assert (Hb : isBuyb t = true) by (unfold isBuyb; rewrite Ety; auto).
      destruct (IH (applyTrade l t) (n + 1)) as (n' & Hn' & E).
      { rewrite (applyTrade_BUY l t Ety). simpl. rewrite Hn, Ht.
        reflexivity. }
      exists n'. split; [exact Hn'|]. rewrite E, Hb. simpl negb. cbn iota.
      simpl List.length. rewrite inject_Z_succ. ring.
    + assert (Hb : isBuyb t = false) by (unfold isBuyb; rewrite Ety; auto).
      destruct (IH (applyTrade l t) (n + - 1)) as (n' & Hn' & E).
      { rewrite (applyTrade_SELL l t Ety). simpl. rewrite Hn, Ht.
        reflexivity. }
      exists n'. split; [exact Hn'|]. rewrite E, Hb. simpl negb. cbn iota.
      simpl List.length. rewrite inject_Z_succ. ring.
Qed.

(** X4.  In every state the dashboard can reach, every trade of the log
    is for one share and stamped with a clock value, the price history
    has at most 100 entries, and the position that [calculateProfit]
    replays from the log is the number of purchases minus the number of
    sales. *)
Theorem X4_reachable_log_unit_trades (s : State) :
  reachable s ->
  Forall unitTrade (trades s)
  /\ (List.length (priceHistory s) <= 100)%nat
  /\ (position (replay (trades s))
        =~ of_Z (Z.of_nat (countBuys (trades s))
                 - Z.of_nat (countSells (trades s))))%num.
Proof.
  intros [events ->].
  assert (H : Forall unitTrade (trades (run initialState events))
              /\ (List.length (priceHistory (run initialState events))
                  <= 100)%nat).
  { induction events as [|e events IH] using rev_ind.
    - split; [constructor|simpl; lia].
    - rewrite run_snoc. destruct IH as [IH1 IH2]. split.
      + apply step_unit_trades. exact IH1.
      + apply step_history_bounded. exact IH2. }
  destruct H as [Hu Hh]. split; [exact Hu|]. split; [exact Hh|].
  destruct (replayFrom_unit_position (trades (run initialState events)))
    with (l := ledger0) (n := 0) as (n' & Hn' & E).
  - eapply Forall_impl; [|exact Hu]. intros t [Hq _]. exact Hq.
  - reflexivity.
  - unfold replay. rewrite Hn'. simpl. rewrite E.
    unfold Zminus. rewrite inject_Z_plus, inject_Z_opp. ring.
Qed.

(** X4 at the state after selecting a stock, a BUY message and a change
    of timeframe. *)
Lemma X4_reachable_log_unit_trades_witness :
  Forall unitTrade (trades (run initialState shortSession))
  /\ (List.length (priceHistory (run initialState shortSession)) <= 100)%nat
  /\ (position (replay (trades (run initialState shortSession)))
        =~ of_Z (Z.of_nat (countBuys (trades (run initialState shortSession)))
                 - Z.of_nat
                     (countSells (trades (run initialState shortSession)))))%num.
Proof.
  apply X4_reachable_log_unit_trades. exists shortSession. reflexivity.
Defined.

Lemma step_trades_prefix (s : State) (e : Event) :
  isSelectStock e = false ->
  exists more, trades (step s e) = trades s ++ more.
Proof.
  intros He. destruct e; try discriminate; simpl.
  - exists []. symmetry. apply app_nil_r.
  - exists []. unfold toggleDataSource.
    destruct (stock_selected s); symmetry; apply app_nil_r.
  - exists []. symmetry. apply app_nil_r.
  - exists []. symmetry. apply app_nil_r.
  - exists (tradeOf d). apply deliver_trades.
Qed.

(** X5.  Only the selection of a stock removes trades: over any events
    that contain none, the trade log at the start is a prefix of the
    trade log at the end.  Selecting a stock empties the log. *)
Theorem X5_only_stock_selection_drops_trades :
  (forall events s,
     forallb (fun e => negb (isSelectStock e)) events = true ->
     exists more, trades (run s events) = trades s ++ more)
  /\ (forall symbol s, trades (step s (SelectStock symbol)) = []).
Proof.
  split; [|reflexivity].
  induction events as [|e events IH]; intros s H.
  - exists []. symmetry. apply app_nil_r.
  - simpl in H. apply andb_true_iff in H. destruct H as [He Hrest].
    apply negb_true_iff in He.
    change (run s (e :: events)) with (run (step s e) events).
    destruct (IH (step s e) Hrest) as (more2 & E2).
    destruct (step_trades_prefix s e He) as (more1 & E1).
    exists (more1 ++ more2). rewrite E2, E1, app_assoc. reflexivity.
Qed.

(** X5 at a BUY message followed by a change of timeframe. *)
Lemma X5_only_stock_selection_drops_trades_witness :
  exists more,
    trades (run initialState (tl shortSession))
    = trades initialState ++ more.
Proof.
  apply (proj1 X5_only_stock_selection_drops_trades). reflexivity.
Defined.

Lemma step_sameSession (s1 s2 : State) (e : Event) :
  sameSession s1 s2 -> sameSession (step s1 e) (step s2 e).
Proof.
  intros (Hsel & Hsig & Htr & Hp & Hpp & Hii & Hph & Hsh).
  destruct e; simpl.
  - repeat split; assumption.
  - repeat split; assumption.
  - unfold toggleDataSource, stock_selected. rewrite Hsel.
    destruct (selectedStock s2) as [[|c str]|] eqn:E;
      repeat split; simpl; congruence.
  - repeat split; assumption.
  - repeat split; assumption.
  - unfold deliver, onMessage.
    destruct (Message.signal (payload d)) as [sig|].
    + destruct (newTrade (nowTrade d) (payload d) sig) as [t|];
        repeat split; simpl; congruence.
    + destruct (0 <? List.length (closedTrades d))%nat;
        repeat split; simpl; congruence.
Qed.

(** X6.  Selecting a stock starts afresh: the trade log, the stored
    profit and percentage, both histories, the latest signal and the
    selection after any later events are the same whatever trading came
    before the selection, for states with the same initial
    investment. *)
Theorem X6_stock_selection_forgets_past (symbol : string)
    (events : list Event) (s1 s2 : State) :
  initialInvestment s1 = initialInvestment s2 ->
  sameSession (run (handleStockSelect symbol s1) events)
    (run (handleStockSelect symbol s2) events).
Proof.
  intros Hii.
  assert (H0 : sameSession (handleStockSelect symbol s1)
                 (handleStockSelect symbol s2)).
  { repeat split. exact Hii. }
  revert H0. generalize (handleStockSelect symbol s1)
                        (handleStockSelect symbol s2).
  induction events as [|e events IH]; intros a b Hab; [exact Hab|].
  change (run a (e :: events)) with (run (step a e) events).
  change (run b (e :: events)) with (run (step b e) events).
  apply IH. apply step_sameSession. exact Hab.
Qed.

(** X6 at the initial state and the state after a short session. *)
Lemma X6_stock_selection_forgets_past_witness :
  sameSession
    (run (handleStockSelect "MSFT" initialState) (tl shortSession))
    (run (handleStockSelect "MSFT" (run initialState shortSession))
       (tl shortSession)).
Proof.
  apply X6_stock_selection_forgets_past. reflexivity.
Defined.

(* ================================================================== *)
(** * Further properties of the ledger *)

Lemma div_by_zero_positive (a b : Q) :
  b == 0 -> 0 < a -> (Fin a / Fin b)%num = PosInf.
Proof.
  intros Hb Ha. simpl. apply Qeq_bool_iff in Hb. rewrite Hb.
  apply Qgt_alt in Ha. rewrite Ha. reflexivity.
Qed.

(** One share sold short, one bought, one sold: the purchase divides by
    a position of zero, the average entry price becomes [Infinity], and
    the second sale realizes [-Infinity]. *)
Lemma sell_buy_sell_ledger (p1 p2 p3 : Q) (t1 t2 t3 : number) :
  0 < p2 ->
  averageEntryPrice
    (replay [Trade.mk T_SELL (Fin p1) t1 (of_Z 1);
             Trade.mk T_BUY (Fin p2) t2 (of_Z 1)]) = PosInf
  /\ currentProfit
       (replay [Trade.mk T_SELL (Fin p1) t1 (of_Z 1);
                Trade.mk T_BUY (Fin p2) t2 (of_Z 1);
                Trade.mk T_SELL (Fin p3) t3 (of_Z 1)]) = NegInf
  /\ (position
        (replay [Trade.mk T_SELL (Fin p1) t1 (of_Z 1);
                 Trade.mk T_BUY (Fin p2) t2 (of_Z 1);
                 Trade.mk T_SELL (Fin p3) t3 (of_Z 1)]) >? of_Z 0)%num
     = false.
Proof.
  intros Hp2.
  unfold replay, replayFrom. cbn [fold_left].
  unfold applyTrade, totalShares, ledger0.
  cbn [Trade.type Trade.price Trade.quantity position averageEntryPrice
       currentProfit totalInvested totalReturned].
  assert (Havg :
    ((of_Z 0 * (of_Z 0 - of_Z 1) + Fin p2 * of_Z 1)
     / (of_Z 0 - of_Z 1 + of_Z 1))%num = PosInf).
  { unfold of_Z.
    change (Fin (inject_Z 0) * (Fin (inject_Z 0) - Fin (inject_Z 1))
            + Fin p2 * Fin (inject_Z 1))%num
      with (Fin (inject_Z 0 * (inject_Z 0 + - inject_Z 1)
                 + p2 * inject_Z 1)).
    change (Fin (inject_Z 0) - Fin (inject_Z 1) + Fin (inject_Z 1))%num
      with (Fin (inject_Z 0 + - inject_Z 1 + inject_Z 1)).
    apply div_by_zero_positive; unfold inject_Z; lra. }
  rewrite Havg. repeat split.
Qed.

Lemma deliver_profit_with_trade (s : State) (d : Delivery) (sig : Signal.t)
    (t : Trade.t) :
  Message.signal (payload d) = Some sig ->
  newTrade (nowTrade d) (payload d) sig = Some t ->
  trades (deliver s d) = trades s ++ [t]
  /\ profit (deliver s d)
     = combinedProfit (replay (closedTrades d ++ [t])) (quoteOf d).
Proof.
  intros Hsig Ht. unfold deliver, onMessage, quoteOf. rewrite Hsig, Ht.
  split; reflexivity.
Qed.

Lemma newTrade_quote (now : Z) (data : Message.t) (sig : Signal.t) (p : Q) :
  StockData.currentPrice (Message.stockData data) = Fin p ->
  (Signal.type sig = BUY ->
   newTrade now data sig = Some (Trade.mk T_BUY (Fin p) (of_Z now) (of_Z 1)))
  /\ (Signal.type sig = SELL ->
      newTrade now data sig
      = Some (Trade.mk T_SELL (Fin p) (of_Z now) (of_Z 1))).
Proof.
  intros Hp. unfold newTrade. rewrite Hp.
  split; intros H; rewrite H; reflexivity.
Qed.

(** X10.  On a dashboard with an empty trade log, three messages whose
    signals are SELL, BUY, SELL, with finite quotes and a positive quote
    at the BUY, leave a trade log whose BUY meets a position of -1: its
    weighted-average update divides by zero and sets the average entry
    price to [Infinity].  When the callback that handles the third
    message closes over the trade log as it is then, the stored profit is
    [-Infinity]. *)
Theorem X10_short_sale_then_buy_breaks_profit (s : State)
    (d1 d2 d3 : Delivery) (sig1 sig2 sig3 : Signal.t) (p1 p2 p3 : Q) :
  trades s = [] ->
  Message.signal (payload d1) = Some sig1 -> Signal.type sig1 = SELL ->
  Message.signal (payload d2) = Some sig2 -> Signal.type sig2 = BUY ->
  Message.signal (payload d3) = Some sig3 -> Signal.type sig3 = SELL ->
  quoteOf d1 = Fin p1 -> quoteOf d2 = Fin p2 -> quoteOf d3 = Fin p3 ->
  0 < p2 ->
  averageEntryPrice (replay (trades (deliverAll s [d1; d2]))) = PosInf
  /\ (closedTrades d3 = trades (deliverAll s [d1; d2]) ->
      profit (deliverAll s [d1; d2; d3]) = NegInf).
Proof.
  intros Hs H1 T1 H2 T2 H3 T3 Q1 Q2 Q3 Hp2.
  unfold quoteOf in *.
  pose proof (proj2 (newTrade_quote (nowTrade d1) (payload d1) sig1 p1 Q1) T1)
    as N1.
  pose proof (proj1 (newTrade_quote (nowTrade d2) (payload d2) sig2 p2 Q2) T2)
    as N2.
  pose proof (proj2 (newTrade_quote (nowTrade d3) (payload d3) sig3 p3 Q3) T3)
    as N3.
  destruct (deliver_profit_with_trade s d1 sig1 _ H1 N1) as [E1 _].
  destruct (deliver_profit_with_trade (deliver s d1) d2 sig2 _ H2 N2)
    as [E2 _].
  destruct (deliver_profit_with_trade (deliver (deliver s d1) d2) d3 sig3 _
              H3 N3) as [_ P3].
  rewrite E1, Hs in E2. simpl app in *.
  destruct (sell_buy_sell_ledger p1 p2 p3 (of_Z (nowTrade d1))
              (of_Z (nowTrade d2)) (of_Z (nowTrade d3)) Hp2)
    as (Havg & Hprofit & Hpos).
  split.
  - change (deliverAll s [d1; d2]) with (deliver (deliver s d1) d2).
    rewrite E2. exact Havg.
  - change (deliverAll s [d1; d2]) with (deliver (deliver s d1) d2).
    rewrite E2. intros Hclosed.
    change (deliverAll s [d1; d2; d3])
      with (deliver (deliver (deliver s d1) d2) d3).
    rewrite P3, Hclosed. simpl app.
    unfold combinedProfit. rewrite Hpos. exact Hprofit.
Qed.

(** X10 at SELL at 100, BUY at 90, SELL at 95, each handled by a
    callback that closes over the trade log as it is then. *)
Lemma X10_short_sale_then_buy_breaks_profit_witness :
  averageEntryPrice
    (replay (trades (deliverAll initialState shortSaleThenBuy))) = PosInf
  /\ profit
       (deliverAll initialState
          (shortSaleThenBuy
             ++ [signalDelivery SELL 95 13000
                   (trades (deliverAll initialState shortSaleThenBuy))]))
     = NegInf.
Proof.
  split.
  - eapply (proj1 (X10_short_sale_then_buy_breaks_profit initialState
                     (signalDelivery SELL 100 1000 [])
                     (signalDelivery BUY 90 7000
                        [Trade.mk T_SELL (of_Z 100) (of_Z 1000) (of_Z 1)])
                     (signalDelivery SELL 95 13000 [])
                     _ _ _ _ _ _
                     eq_refl eq_refl eq_refl eq_refl eq_refl eq_refl eq_refl
                     eq_refl eq_refl eq_refl eq_refl)).
  - eapply (proj2 (X10_short_sale_then_buy_breaks_profit initialState
                     (signalDelivery SELL 100 1000 [])
                     (signalDelivery BUY 90 7000
                        [Trade.mk T_SELL (of_Z 100) (of_Z 1000) (of_Z 1)])
                     (signalDelivery SELL 95 13000
                        (trades (deliverAll initialState shortSaleThenBuy)))
                     _ _ _ _ _ _
                     eq_refl eq_refl eq_refl eq_refl eq_refl eq_refl eq_refl
                     eq_refl eq_refl eq_refl eq_refl)).
    reflexivity.
Defined.

Section DoubleTotals.

Import PrimFloat.

Lemma IEEE_replayFrom_totals (log : list IEEE.Trade) :
  forall l : IEEE.Ledger,
    IEEE.totalInvested (IEEE.replayFrom l log)
    = fold_left (fun acc t => (acc + IEEE.price t * IEEE.quantity t)%float)
        (filter IEEE.isBuyb log) (IEEE.totalInvested l)
    /\ IEEE.totalReturned (IEEE.replayFrom l log)
       = fold_left (fun acc t => (acc + IEEE.price t * IEEE.quantity t)%float)
           (filter IEEE.isSellb log) (IEEE.totalReturned l).
Proof.
  induction log as [|t log IH]; intros l; [split; reflexivity|].
  change (IEEE.replayFrom l (t :: log))
    with (IEEE.replayFrom (IEEE.applyTrade l t) log).
  destruct (IH (IEEE.applyTrade l t)) as [Hi Hr]. rewrite Hi, Hr.
  cbn [filter]. unfold IEEE.isSellb, IEEE.isBuyb, IEEE.applyTrade.
  destruct (IEEE.type t); split; reflexivity.
Qed.

(** X8.  In the binary64 arithmetic of the code, and for any trade log,
    the replay's [totalInvested] is the sum of price*quantity over the
    purchases and its [totalReturned] the sum of price*quantity over the
    sales, each added from left to right in log order, however purchases
    and sales are interleaved. *)
Theorem X8_totals_are_running_sums (log : list IEEE.Trade) :
  IEEE.totalInvested (IEEE.replay log)
  = IEEE.sumCost (filter IEEE.isBuyb log)
  /\ IEEE.totalReturned (IEEE.replay log)
     = IEEE.sumCost (filter IEEE.isSellb log).
Proof.
  exact (IEEE_replayFrom_totals log IEEE.ledger0).
Qed.

(** X20.  The percentage is measured against the whole initial
    investment, so the cash that was never invested counts as lost.  In
    the binary64 arithmetic of the code and with the dashboard's initial
    investment of 10000: after [BUY 1@100] at current price 100 the
    profit is 0 and the percentage is -99; after [BUY 1@100, SELL 1@120]
    at current price 120 the profit is 20 and the percentage is
    negative. *)
Theorem X20_percentage_counts_uninvested_cash_as_lost (t1 t2 : float) :
  IEEE.calculateProfit 10000 [IEEE.buy1 100 t1] 100 = (0, -99)%float
  /\ fst (IEEE.calculateProfit 10000
            [IEEE.buy1 100 t1; IEEE.sell1 120 t2] 120) = 20%float
  /\ (snd (IEEE.calculateProfit 10000
             [IEEE.buy1 100 t1; IEEE.sell1 120 t2] 120) <? 0)%float = true.
Proof.
  repeat split.
Qed.

End DoubleTotals.

(* ================================================================== *)
(** * Further properties of the mock feed *)

Lemma runFeed_chained (symbol : string) (envs : list TickEnv) :
  forall (f : MockFeed) (prev : number),
    lastPrice f = Some prev -> chained symbol prev (runFeed symbol f envs).
Proof.
  induction envs as [|env envs IH]; intros f prev Hf; [exact I|].
  cbn [runFeed]. unfold intervalTick.
  destruct (generateSignal (signalEnv env)
              (generateMockStockData (priceRandom env) symbol (lastPrice f))
              (lastSignal f) (lastSignalTime f)) as [sig|];
    cbn [chained Message.stockData]; rewrite Hf;
    (split; [reflexivity | apply IH; reflexivity]).
Qed.

(** X12.  For a symbol that has a base price, the first quote of the
    mock feed starts from that base price.  From then on the
    [previousPrice] of each message is the [currentPrice] of the message
    before it, as long as that one is neither 0 nor NaN; after a 0 or a
    NaN the feed starts again from the base price. *)
Theorem X12_mock_feed_quotes_chain (symbol : string) (r0 : Q)
    (envs : list TickEnv) :
  In symbol (map fst basePrices) ->
  (exists b,
     lookup symbol basePrices = Some b
     /\ StockData.previousPrice
          (Message.stockData (snd (feedStart r0 symbol))) = b)
  /\ chained symbol
       (StockData.currentPrice (Message.stockData (snd (feedStart r0 symbol))))
       (runFeed symbol (fst (feedStart r0 symbol)) envs).
Proof.
  intros Hin. split; [|apply runFeed_chained; reflexivity].
  cbn [map fst basePrices In] in Hin.
  repeat (destruct Hin as [<-|Hin]; [eexists; split; reflexivity|]).
  destruct Hin.
Qed.

(** X12 at the feed of AAPL with two ticks. *)
Lemma X12_mock_feed_quotes_chain_witness :
  (exists b,
     lookup "AAPL" basePrices = Some b
     /\ StockData.previousPrice
          (Message.stockData (snd (feedStart (1 # 4) "AAPL"))) = b)
  /\ chained "AAPL"
       (StockData.currentPrice
          (Message.stockData (snd (feedStart (1 # 4) "AAPL"))))
       (runFeed "AAPL" (fst (feedStart (1 # 4) "AAPL"))
          [tickBuyAt 1000; tickSellAt 7000]).
Proof.
  apply X12_mock_feed_quotes_chain. simpl. auto.
Defined.

Lemma runFeed_spaced (symbol : string) (envs : list TickEnv) :
  Forall clockOk envs ->
  forall f, feedOk f ->
    spaced (afterLast (lastSignal f) (emittedSignals (runFeed symbol f envs))).
Proof.
  induction 1 as [|env envs [Hmono Hnz] _ IH]; intros f Hf.
  - destruct (lastSignal f); simpl; auto.
  - cbn [runFeed]. unfold intervalTick.
    destruct (generateSignal (signalEnv env)
                (generateMockStockData (priceRandom env) symbol (lastPrice f))
                (lastSignal f) (lastSignalTime f)) as [sig|] eqn:E.
    + cbn [emittedSignals Message.signal].
      destruct (generateSignal_emitted _ _ _ _ _ E) as (Hsig & Hrate & _).
      assert (Hts : Signal.timestamp sig = of_Z (nowStamp (signalEnv env))).
      { rewrite Hsig. reflexivity. }
      match goal with
      | |- context [runFeed symbol ?f' envs] =>
          assert (Hrest : spaced (afterLast (lastSignal f')
                                    (emittedSignals (runFeed symbol f' envs))))
      end.
      { apply IH. unfold feedOk. cbn [lastSignal lastSignalTime].
        exists (nowStamp (signalEnv env)). rewrite Hts. auto. }
      cbn [lastSignal afterLast] in Hrest.
      unfold feedOk in Hf. destruct (lastSignal f) as [prev|]; [|exact Hrest].
      destruct Hf as (z & Hz & Hpt & Hlt).
      cbn [afterLast spaced]. split; [|exact Hrest].
      rewrite Hts, Hpt. apply of_Z_diff_at_least.
      rewrite Hlt in Hrate. unfold tooFrequent in Hrate.
      rewrite (truthy_of_Z z Hz) in Hrate. simpl andb in Hrate.
      apply of_Z_diff_not_below in Hrate. lia.
    + cbn [emittedSignals Message.signal].
      match goal with
      | |- context [runFeed symbol ?f' envs] => apply (IH f')
      end.
      exact Hf.
Qed.

(** X13.  Along a run of the mock feed that has emitted nothing yet,
    when the clock does not run backwards within a call and never reads
    zero at a stamp, any two consecutive emitted signals are stamped at
    least 5000 ms apart. *)
Theorem X13_emitted_signals_five_seconds_apart (symbol : string)
    (lp : option number) (envs : list TickEnv) :
  Forall clockOk envs ->
  spaced (emittedSignals (runFeed symbol (mkMockFeed lp None None) envs)).
Proof.
  intros H.
  apply (runFeed_spaced symbol envs H (mkMockFeed lp None None)).
  exact I.
Qed.

(** X13 at a BUY at 1000 and a SELL at 7000. *)
Lemma X13_emitted_signals_five_seconds_apart_witness :
  spaced
    (emittedSignals
       (runFeed "AAPL" (mkMockFeed None None None)
          [tickBuyAt 1000; tickSellAt 7000])).
Proof.
  apply X13_emitted_signals_five_seconds_apart.
  repeat constructor; discriminate.
Defined.

(* ================================================================== *)
(** * Properties of the price chart *)

Lemma lastOf_snoc {A : Type} (l : list A) (x : A) :
  lastOf (l ++ [x]) = Some x.
Proof.
  induction l as [|y l IH]; [reflexivity|].
  simpl. destruct (l ++ [x]) eqn:E; [|exact IH].
  destruct l; discriminate.
Qed.

Lemma filter_nil_forallb {A : Type} (f : A -> bool) (l : list A) :
  filter f l = [] <-> forallb (fun x => negb (f x)) l = true.
Proof.
  induction l as [|x l IH]; simpl; [tauto|].
  destruct (f x); simpl; [split; discriminate|exact IH].
Qed.

Lemma profitStatusAt_filter (trades : list Trade.t) (point : PricePoint.t) :
  profitStatusAt trades point
  = option_map (fun t => statusAgainst t point)
      (lastOf (filter (before point) trades)).
Proof.
  unfold profitStatusAt. fold (before point).
  destruct trades as [|t0 trades]; [reflexivity|].
  cbn [List.length Nat.ltb Nat.leb].
  destruct (filter (before point) (t0 :: trades)) as [|t l] eqn:E;
    [reflexivity|].
  cbn [List.length Nat.ltb Nat.leb].
  destruct (lastOf (t :: l)) as [lastTrade|]; [|reflexivity].
  unfold statusAgainst. simpl. destruct (Trade.type lastTrade); reflexivity.
Qed.

(** X14.  A chart point has no profit status exactly when no trade of
    the log is stamped strictly before it.  Otherwise its status is
    taken against the last trade of the log, in log order, that is
    stamped before it: "profit" above the price of a BUY or below the
    price of a SELL, "loss" otherwise, so a point at the price of that
    trade is in "loss" for both kinds. *)
Theorem X14_profit_status_against_last_earlier_trade :
  (forall trades point,
     profitStatusAt trades point = None
     <-> forallb (fun t => negb (before point t)) trades = true)
  /\ (forall earlier t later point,
        before point t = true ->
        forallb (fun t' => negb (before point t')) later = true ->
        profitStatusAt (earlier ++ t :: later) point
        = Some (statusAgainst t point))
  /\ (forall t point p,
        PricePoint.price point = Fin p -> Trade.price t = Fin p ->
        statusAgainst t point = StatusLoss).
Proof.
  split; [|split].
  - intros trades point. rewrite profitStatusAt_filter.
    rewrite <- filter_nil_forallb.
    destruct (filter (before point) trades) as [|t l] eqn:E.
    + split; reflexivity.
    + split; [|discriminate].
      destruct (lastOf (t :: l)) eqn:El; [discriminate|].
      exfalso. clear E. revert t El.
      induction l as [|y l IH]; intros t El; [discriminate|].
      apply (IH y). exact El.
  - intros earlier t later point Ht Hlater.
    rewrite profitStatusAt_filter, filter_app. cbn [filter]. rewrite Ht.
    apply filter_nil_forallb in Hlater. rewrite Hlater.
    change (filter (before point) earlier ++ [t])
      with (filter (before point) earlier ++ [t]).
    rewrite lastOf_snoc. reflexivity.
  - intros t point p Hp Ht. unfold statusAgainst, gtb. rewrite Hp, Ht.
    assert (H : (Fin p <? Fin p)%num = false).
    { destruct (Fin p <? Fin p)%num eqn:E; [|reflexivity].
      apply ltb_Fin in E. lra. }
    rewrite H. destruct (Trade.type t); reflexivity.
Qed.

(** X14 at a point at time 9000 and price 100 after [BUY 1@100 at 1,
    SELL 1@120 at 2]. *)
Lemma X14_profit_status_against_last_earlier_trade_witness :
  profitStatusAt ([buy1At 100 (of_Z 1)] ++ sell1At 120 (of_Z 2) :: [])
    (PricePoint.mk (of_Z 100) (of_Z 9000))
  = Some (statusAgainst (sell1At 120 (of_Z 2))
            (PricePoint.mk (of_Z 100) (of_Z 9000)))
  /\ statusAgainst (buy1At 100 (of_Z 1))
       (PricePoint.mk (of_Z 100) (of_Z 9000)) = StatusLoss.
Proof.
  split.
  - apply (proj1 (proj2 X14_profit_status_against_last_earlier_trade));
      reflexivity.
  - apply (proj2 (proj2 X14_profit_status_against_last_earlier_trade)
             (buy1At 100 (of_Z 1)) (PricePoint.mk (of_Z 100) (of_Z 9000))
             (inject_Z 100));
      reflexivity.
Defined.

Lemma withinOneSecond_same_clock (now : Z) :
  withinOneSecond (of_Z now) (of_Z now) = true.
Proof.
  unfold withinOneSecond. rewrite of_Z_sub. unfold Math_abs, of_Z.
  apply ltb_Fin.
  setoid_replace (inject_Z now + - inject_Z now) with 0 by ring.
  reflexivity.
Qed.

Lemma find_app_found {A : Type} (f : A -> bool) (l : list A) (x : A) :
  f x = true -> exists y, find f (l ++ [x]) = Some y /\ f y = true.
Proof.
  intros Hx. induction l as [|z l IH]; simpl.
  - rewrite Hx. exists x. auto.
  - destruct (f z) eqn:Ez; [exists z; auto|exact IH].
Qed.

(** X15.  A chart point carries a trade marker exactly when some trade
    of the log is stamped within one second of it, and the marker is the
    type of the first such trade of the log.  When a message makes a
    trade and the clock reads the same for the price point and for the
    trade, the point that the message adds carries a trade marker. *)
Theorem X15_trade_marker (toLocaleTimeString : number -> string) :
  (forall signalData trades point,
     ChartPoint.trade (chartPoint toLocaleTimeString signalData trades point)
     = None
     <-> forallb
           (fun t =>
              negb (withinOneSecond (Trade.timestamp t)
                      (PricePoint.timestamp point)))
           trades = true)
  /\ (forall signalData earlier t later point,
        withinOneSecond (Trade.timestamp t) (PricePoint.timestamp point)
        = true ->
        forallb
          (fun t' =>
             negb (withinOneSecond (Trade.timestamp t')
                     (PricePoint.timestamp point)))
          earlier = true ->
        ChartPoint.trade
          (chartPoint toLocaleTimeString signalData (earlier ++ t :: later)
             point)
        = Some (Trade.type t))
  /\ (forall s d sig t,
        Message.signal (payload d) = Some sig ->
        newTrade (nowTrade d) (payload d) sig = Some t ->
        nowHistory d = nowTrade d ->
        ChartPoint.trade
          (chartPoint toLocaleTimeString (signalHistory (deliver s d))
             (trades (deliver s d)) (pointOf d))
        <> None).
Proof.
  split; [|split].
  - intros signalData trades point. cbn [chartPoint ChartPoint.trade].
    rewrite <- filter_nil_forallb.
    induction trades as [|t trades IH]; [split; reflexivity|].
    simpl find. simpl filter.
    destruct (withinOneSecond (Trade.timestamp t)
                (PricePoint.timestamp point));
      [split; discriminate|exact IH].
  - intros signalData earlier t later point Ht Hearlier.
    cbn [chartPoint ChartPoint.trade].
    induction earlier as [|e earlier IH].
    + simpl. rewrite Ht. reflexivity.
    + simpl in Hearlier. apply andb_true_iff in Hearlier.
      destruct Hearlier as [He Hrest]. apply negb_true_iff in He.
      simpl. rewrite He. apply IH. exact Hrest.
  - intros s d sig t Hsig Ht Hclock.
    destruct (deliver_profit_with_trade s d sig t Hsig Ht) as [E _].
    rewrite E. cbn [chartPoint ChartPoint.trade].
    assert (Hnear : withinOneSecond (Trade.timestamp t)
                      (PricePoint.timestamp (pointOf d)) = true).
    { unfold pointOf. cbn [PricePoint.timestamp]. rewrite Hclock.
      unfold newTrade in Ht.
      destruct (Signal.type sig); try discriminate;
        injection Ht as <-; apply withinOneSecond_same_clock. }
    destruct (find_app_found
                (fun t' =>
                   withinOneSecond (Trade.timestamp t')
                     (PricePoint.timestamp (pointOf d)))
                (trades s) t Hnear) as (y & Hy & _).
    rewrite Hy. discriminate.
Qed.

(** X15 at the BUY message handled at time 5007, and at the log
    [BUY at 1, SELL at 2] seen from a point at time 500. *)
Lemma X15_trade_marker_witness :
  ChartPoint.trade
    (chartPoint (fun _ => EmptyString)
       (signalHistory (deliver initialState staleDelivery))
       (trades (deliver initialState staleDelivery))
       (pointOf staleDelivery))
  <> None
  /\ ChartPoint.trade
       (chartPoint (fun _ => EmptyString) []
          ([] ++ buy1At 100 (of_Z 1) :: [sell1At 120 (of_Z 2)])
          (PricePoint.mk (of_Z 100) (of_Z 500)))
     = Some T_BUY.
Proof.
  split.
  - apply (proj2 (proj2 (X15_trade_marker (fun _ => EmptyString)))
             initialState staleDelivery staleSignal
             (Trade.mk T_BUY (of_Z 101) (of_Z 5007) (of_Z 1)));
      reflexivity.
  - apply (proj1 (proj2 (X15_trade_marker (fun _ => EmptyString))) []
             [] (buy1At 100 (of_Z 1)) [sell1At 120 (of_Z 2)]
             (PricePoint.mk (of_Z 100) (of_Z 500)));
      reflexivity.
Defined.

(* ================================================================== *)
(** * The feed, the selector and the dashboard together *)

(** X17.  Every stock that the selector offers has a positive base
    price in the mock feed, from which the feed's first quote starts, and
    the feed names it as the selector does. *)
Theorem X17_selectable_stocks_have_feed_data :
  Forall (fun st =>
            getStockName (fst st) = snd st
            /\ exists p,
                 lookup (fst st) basePrices = Some (Fin p) /\ 0 < p
                 /\ forall rnd,
                      StockData.previousPrice
                        (generateMockStockData rnd (fst st) None) = Fin p
                      /\ StockData.name
                           (generateMockStockData rnd (fst st) None) = snd st)
    stocks.
Proof.
  unfold stocks.
  repeat (constructor;
          [split;
           [reflexivity
           |eexists; split; [reflexivity|split; [reflexivity|]];
            intros rnd; split; reflexivity]|]).
  constructor.
Qed.

(** X19.  The first tick of a mock feed that has emitted nothing always
    carries a signal.  When its draw classifies as SELL and the trade log
    is empty, the dashboard sells a share it does not hold: the sale is
    not covered and the replayed position is -1. *)
Theorem X19_fresh_feed_can_open_short (symbol : string)
    (lp : option number) (env : TickEnv) (closed : list Trade.t)
    (nowH nowT : Z) (s : State) :
  Message.signal (snd (intervalTick symbol (mkMockFeed lp None None) env))
  <> None
  /\ (trades s = [] ->
      signalType (random (signalEnv env)) = SELL ->
      sellsCovered ledger0
        (trades
           (onMessage closed nowH nowT
              (snd (intervalTick symbol (mkMockFeed lp None None) env)) s))
      = false
      /\ (position
            (replay
               (trades
                  (onMessage closed nowH nowT
                     (snd (intervalTick symbol (mkMockFeed lp None None) env))
                     s)))
            =~ of_Z (-1))%num).
Proof.
  unfold intervalTick. cbn [lastPrice lastSignal lastSignalTime].
  rewrite generateSignal_change; [|reflexivity|discriminate].
  cbn [snd Message.signal]. split; [discriminate|].
  intros Hs Hsell. rewrite Hsell.
  unfold onMessage. cbn [Message.signal Message.stockData].
  unfold newTrade. cbn [Signal.type Message.stockData].
  cbn [calculateProfit setProfitPercent setProfit setTrades trades].
  unfold calculateProfit. cbn [setProfitPercent setProfit setTrades trades
    setSignalHistory setSignal setPriceHistory setStockData].
  rewrite Hs. cbn [app]. split.
  - reflexivity.
  - unfold replay, replayFrom. cbn [fold_left]. unfold applyTrade.
    cbn [Trade.type Trade.quantity position ledger0]. simpl.
    unfold inject_Z. ring.
Qed.

(** X19 at a draw of 0.2 on the first tick of the feed of AAPL. *)
Lemma X19_fresh_feed_can_open_short_witness :
  sellsCovered ledger0
    (trades
       (onMessage [] 7000 7000
          (snd (intervalTick "AAPL" (mkMockFeed None None None)
                  (tickSellAt 7000)))
          initialState))
  = false
  /\ (position
        (replay
           (trades
              (onMessage [] 7000 7000
                 (snd (intervalTick "AAPL" (mkMockFeed None None None)
                         (tickSellAt 7000)))
                 initialState)))
        =~ of_Z (-1))%num.
Proof.
  apply (proj2 (X19_fresh_feed_can_open_short "AAPL" None (tickSellAt 7000)
                  [] 7000 7000 initialState)); reflexivity.
Defined.

